(** * The Glimmer layout compiler: a shallow embedding of
      [packages/@glimmer/runtime/lib/compiler.ts]

    The file follows the source top to bottom: the wire-format data the
    compiler builds, the tag and attribute builders, the two layout
    strategies with their facade, and the component-invocation compiler
    that drives an opcode builder.  Theorems come after all definitions. *)

From Stdlib Require Import List String Bool Arith Lia.
Import ListNotations.
Open Scope string_scope.
Open Scope list_scope.

Set Implicit Arguments.
Set Warnings "-register-all".

(* ===================================================================== *)
(** ** JavaScript values the source distinguishes *)

(** [Option<T>] of [@glimmer/util] is [T | null]: Rocq's [option], with
    [None] for [null].  [Maybe<T>] is [T | null | undefined]; the source
    produces [undefined] when a getter falls off its [if] and when an
    array is indexed past its end. *)
Inductive Maybe (T : Type) : Type :=
| undefined
| null
| just (v : T).
Arguments undefined {T}.
Arguments null {T}.
Arguments just {T} v.

Definition Maybe_of_Option {T} (o : option T) : Maybe T :=
  match o with Some v => just v | None => null end.

(** [if (x)] on an [Option<boolean>]: only [true] is truthy. *)
Definition truthy_flag (o : option bool) : bool :=
  match o with Some true => true | _ => false end.

(** [a[i]] on a JS array. *)
Definition js_index {T} (a : list (option T)) (i : nat) : Maybe T :=
  match nth_error a i with
  | Some o => Maybe_of_Option o
  | None => undefined
  end.

(** Exceptions the source raises itself ([Error]) or that the language
    raises when a property of [undefined] is read ([TypeError]). *)
Inductive Exn : Type :=
| Error (message : string)
| TypeError.

Inductive Result (A : Type) : Type :=
| Ok (a : A)
| Throw (e : Exn).
Arguments Ok {A} a.
Arguments Throw {A} e.

(** The return type of a method that returns nothing. *)
Definition void : Type := Datatypes.unit.

(** Opaque handles: the source only passes these along. *)
Inductive Environment : Type := Env (id : nat).
Inductive FunctionExpression : Type := FunctionRef (id : nat).
Inductive Helper : Type := HelperRef (id : nat).
Inductive StaticDefinition : Type := DefinitionRef (id : nat).
Inductive TemplateMeta : Type := Meta (id : nat).

(* ===================================================================== *)
(** ** Wire format *)

(** The declarations of [@glimmer/wire-format] are not part of the
    sources at hand.  The constructors below are the ones [compiler.ts]
    builds ([Block], [Yield], [FlushElement], [CloseElement],
    [StaticAttr], [DynamicAttr], the client-side statements and
    expressions, [FixThisBeforeWeMerge]) together with a few ordinary
    template forms, so that a template body is a genuine tree. *)
Module WireFormat.

Definition Path := list string.

Inductive Expression : Type :=
| Unknown (path : Path)
| Get (path : Path)
| FixThisBeforeWeMerge (path : Path)
| Value (v : string)
| Concat (parts : list Expression)
| HelperCall (path : Path) (params : list Expression)
             (hash : option (list string * list Expression))
(* [Ops.ClientSideExpression, ClientSide.Ops.FunctionExpression, f] *)
| ClientSideExpression_FunctionExpression (f : FunctionExpression).

Definition Params := list Expression.
Definition Hash := option (list string * list Expression).

Record InlineBlockOf (S : Type) : Type := mkInlineBlock {
  locals : list string;
  statements : list S
}.

Inductive Statement : Type :=
| Text (s : string)
| Append (value : Expression) (trusting : bool)
| Comment (s : string)
| Block (path : Path) (params : Params) (hash : Hash)
        (template : option (InlineBlockOf Statement))
        (inverse : option (InlineBlockOf Statement))
| OpenElement (tag : string) (blockParams : list string)
| FlushElement
| CloseElement
| StaticAttr (name value : string) (namespace : option string)
| DynamicAttr (name : string) (value : Expression) (namespace : option string)
| Yield (to : string) (params : Params)
(* [Ops.ClientSideStatement, ClientSide.Ops.OpenDynamicElement, e] *)
| ClientSideStatement_OpenDynamicElement (tag : Expression)
(* [Ops.ClientSideStatement, ClientSide.Ops.OpenComponentElement, t] *)
| ClientSideStatement_OpenComponentElement (tag : Maybe string).

Definition InlineBlock := InlineBlockOf Statement.

Record SerializedTemplateBlock : Type := mkBlock {
  block_statements : list Statement;
  named : list string;
  yields : list string;
  hasPartials : bool;
  prelude : option (list Statement);
  head : option (list Statement)
}.

Record SerializedTemplate : Type := mkTemplate {
  block : SerializedTemplateBlock;
  meta : TemplateMeta
}.

(** *** Structural equality on expressions *)

Definition list_eqb {A} (f : A -> A -> bool) : list A -> list A -> bool :=
  fix go (l1 l2 : list A) : bool :=
    match l1, l2 with
    | [], [] => true
    | x :: r1, y :: r2 => f x y && go r1 r2
    | _, _ => false
    end.

Definition Path_eqb : Path -> Path -> bool := list_eqb String.eqb.

Definition FunctionExpression_eqb (f g : FunctionExpression) : bool :=
  match f, g with FunctionRef a, FunctionRef b => Nat.eqb a b end.

Fixpoint Expression_eqb (a b : Expression) {struct a} : bool :=
  match a, b with
  | Unknown p, Unknown q => Path_eqb p q
  | Get p, Get q => Path_eqb p q
  | FixThisBeforeWeMerge p, FixThisBeforeWeMerge q => Path_eqb p q
  | Value v, Value w => String.eqb v w
  | Concat ps, Concat qs => list_eqb Expression_eqb ps qs
  | HelperCall p ps h, HelperCall q qs k =>
      Path_eqb p q && list_eqb Expression_eqb ps qs &&
      match h, k with
      | None, None => true
      | Some (ks, vs), Some (ks', vs') =>
          list_eqb String.eqb ks ks' && list_eqb Expression_eqb vs vs'
      | _, _ => false
      end
  | ClientSideExpression_FunctionExpression f,
    ClientSideExpression_FunctionExpression g => FunctionExpression_eqb f g
  | _, _ => false
  end.

(** *** Counting the places where an expression is evaluated *)

Definition sum_with {A} (f : A -> nat) : list A -> nat :=
  fix go (l : list A) : nat :=
    match l with
    | [] => 0
    | x :: r => f x + go r
    end.

(** Occurrences of [e] in evaluated position inside [x]. *)
Fixpoint occurrences_in_expression (e x : Expression) {struct x} : nat :=
  if Expression_eqb e x then 1 else
  match x with
  | Concat ps => sum_with (occurrences_in_expression e) ps
  | HelperCall _ ps h =>
      sum_with (occurrences_in_expression e) ps +
      match h with
      | Some (_, vs) => sum_with (occurrences_in_expression e) vs
      | None => 0
      end
  | _ => 0
  end.

Definition occurrences_in_hash (e : Expression) (h : Hash) : nat :=
  match h with
  | Some (_, vs) => sum_with (occurrences_in_expression e) vs
  | None => 0
  end.

(** Occurrences of [e] in evaluated position inside statement [s],
    descending into the templates of blocks. *)
Fixpoint occurrences_in_statement (e : Expression) (s : Statement) {struct s} : nat :=
  match s with
  | Append v _ => occurrences_in_expression e v
  | Block _ ps h t i =>
      sum_with (occurrences_in_expression e) ps +
      occurrences_in_hash e h +
      match t with
      | Some b => sum_with (occurrences_in_statement e) (statements b)
      | None => 0
      end +
      match i with
      | Some b => sum_with (occurrences_in_statement e) (statements b)
      | None => 0
      end
  | DynamicAttr _ v _ => occurrences_in_expression e v
  | Yield _ ps => sum_with (occurrences_in_expression e) ps
  | ClientSideStatement_OpenDynamicElement t => occurrences_in_expression e t
  | _ => 0
  end.

Definition occurrences (e : Expression) (l : list Statement) : nat :=
  sum_with (occurrences_in_statement e) l.

End WireFormat.
Import WireFormat.

(* ===================================================================== *)
(** ** The scanning stage *)

(** Modelled from the spec: [./scanner] and [./symbol-table] are not
    among the sources at hand; the spec consumes scanning as a black box
    that takes a statement list and a symbol table.  The calls the
    compiler makes on it are therefore recorded as they are written,
    uninterpreted: [layoutTable(meta, named, yields, hasPartials)],
    [scanBlock(statements, table, env)], [new Scanner(block, meta, env)]
    followed by [scanLayout()], and [new RawTemplate(child.statements,
    table)]. *)
Inductive SymbolTable : Type :=
| layoutTable (meta : TemplateMeta) (named yields : list string) (hasPartials : bool).

Inductive ScannedBlock : Type :=
| scanBlock (statements : list Statement) (table : SymbolTable) (env : Environment).

Inductive Scanner : Type :=
| new_Scanner (block : SerializedTemplateBlock) (meta : TemplateMeta) (env : Environment).

Inductive Program : Type :=
| RawTemplate (child : ScannedBlock) (table : SymbolTable)
| scanLayout (scanner : Scanner).

(** The statement list a program was scanned from, when the compiler
    built that list itself (the dynamic-tag path). *)
Definition scanned_from (p : Program) : option (list Statement) :=
  match p with
  | RawTemplate (scanBlock element _ _) _ => Some element
  | scanLayout _ => None
  end.

(** The block a program's scanner was constructed with. *)
Definition scanner_block (p : Program) : option SerializedTemplateBlock :=
  match p with
  | scanLayout (new_Scanner b _ _) => Some b
  | RawTemplate _ _ => None
  end.

(* ===================================================================== *)
(** ** [class ComponentTagBuilder] *)

Module ComponentTagBuilder.

Record t : Type := mk {
  isDynamic : option bool;
  isStatic : option bool;
  staticTagName : option string;
  dynamicTagName : option Expression
}.

(** Field initialisers. *)
Definition new : t :=
  {| isDynamic := None; isStatic := None;
     staticTagName := None; dynamicTagName := None |}.

Definition getDynamic (this : t) : Maybe Expression :=
  if truthy_flag (isDynamic this)
  then Maybe_of_Option (dynamicTagName this)
  else undefined.

Definition getStatic (this : t) : Maybe string :=
  if truthy_flag (isStatic this)
  then Maybe_of_Option (staticTagName this)
  else undefined.

Definition static (tagName : string) (this : t) : t :=
  {| isDynamic := isDynamic this;
     isStatic := Some true;
     staticTagName := Some tagName;
     dynamicTagName := dynamicTagName this |}.

Definition dynamic (tagName : FunctionExpression) (this : t) : t :=
  {| isDynamic := Some true;
     isStatic := isStatic this;
     staticTagName := staticTagName this;
     dynamicTagName := Some (ClientSideExpression_FunctionExpression tagName) |}.

(** A call on the tag builder, and a sequence of them run in order. *)
Inductive op : Type :=
| call_static (tagName : string)
| call_dynamic (tagName : FunctionExpression).

Definition apply (o : op) (this : t) : t :=
  match o with
  | call_static n => static n this
  | call_dynamic f => dynamic f this
  end.

Definition run (ops : list op) (this : t) : t :=
  fold_left (fun acc o => apply o acc) ops this.

Definition is_static_op (o : op) : bool :=
  match o with call_static _ => true | call_dynamic _ => false end.

Definition is_dynamic_op (o : op) : bool :=
  match o with call_dynamic _ => true | call_static _ => false end.

(** Both flags truthy at once. *)
Definition both_set (this : t) : bool :=
  truthy_flag (isStatic this) && truthy_flag (isDynamic this).

End ComponentTagBuilder.

(* ===================================================================== *)
(** ** [class ComponentAttrsBuilder] *)

Module ComponentAttrsBuilder.

Record t : Type := mk { buffer : list Statement }.

Definition new : t := {| buffer := [] |}.

(** [Array.prototype.push] appends at the end. *)
Definition static (name value : string) (this : t) : t :=
  {| buffer := buffer this ++ [StaticAttr name value None] |}.

Definition dynamic (name : string) (value : FunctionExpression) (this : t) : t :=
  {| buffer := buffer this ++
       [DynamicAttr name (ClientSideExpression_FunctionExpression value) None] |}.

Inductive op : Type :=
| call_static (name value : string)
| call_dynamic (name : string) (value : FunctionExpression).

Definition apply (o : op) (this : t) : t :=
  match o with
  | call_static n v => static n v this
  | call_dynamic n f => dynamic n f this
  end.

Definition run (ops : list op) (this : t) : t :=
  fold_left (fun acc o => apply o acc) ops this.

(** The buffer entry one call pushes. *)
Definition entry (o : op) : Statement :=
  match o with
  | call_static n v => StaticAttr n v None
  | call_dynamic n f =>
      DynamicAttr n (ClientSideExpression_FunctionExpression f) None
  end.

End ComponentAttrsBuilder.

(* ===================================================================== *)
(** ** [class WrappedBuilder] *)

Module WrappedBuilder.

Record t : Type := mk {
  tag : ComponentTagBuilder.t;
  attrs : ComponentAttrsBuilder.t;
  env : Environment;
  layout : SerializedTemplate
}.

Definition new (env : Environment) (layout : SerializedTemplate) : t :=
  {| tag := ComponentTagBuilder.new;
     attrs := ComponentAttrsBuilder.new;
     env := env;
     layout := layout |}.

(** The local [statements]: an array is truthy even when empty, so the
    test [block.prelude && block.head] asks that neither is [null]. *)
Definition statements_of (block : SerializedTemplateBlock) : list Statement :=
  match prelude block, head block with
  | Some p, Some h => (p ++ h) ++ block_statements block
  | _, _ => block_statements block
  end.

(** First entry of the array [element]: the [with] block that binds the
    evaluated tag to the local [tag] and holds the open sequence. *)
Definition open_guard (dynamicTag : Expression) (buffer : list Statement) : Statement :=
  Block ["with"] [dynamicTag] None
    (Some {| locals := ["tag"];
             statements :=
               [ClientSideStatement_OpenDynamicElement (FixThisBeforeWeMerge ["tag"]);
                Yield "%attrs%" []]
               ++ buffer
               ++ [FlushElement] |})
    None.

(** Last entry of the array [element]: the [if] block that holds the
    close sequence. *)
Definition close_guard (dynamicTag : Expression) : Statement :=
  Block ["if"] [dynamicTag] None
    (Some {| locals := []; statements := [CloseElement] |})
    None.

Definition compile (this : t) : Program :=
  let meta := meta (layout this) in
  let block := block (layout this) in
  let statements := statements_of block in
  let dynamicTag := ComponentTagBuilder.getDynamic (tag this) in
  match dynamicTag with
  | just dynamicTag =>
      let element : list Statement :=
        [open_guard dynamicTag (ComponentAttrsBuilder.buffer (attrs this))]
        ++ statements
        ++ [close_guard dynamicTag] in
      let table :=
        layoutTable meta (named block) (yields block ++ ["%attrs%"])
                    (hasPartials block) in
      let child := scanBlock element table (env this) in
      RawTemplate child table
  | _ =>
      let staticTag := ComponentTagBuilder.getStatic (tag this) in
      let prelude := [ClientSideStatement_OpenComponentElement staticTag] in
      let head := ComponentAttrsBuilder.buffer (attrs this) in
      let scanner :=
        new_Scanner
          {| block_statements := block_statements block;
             named := named block;
             yields := yields block;
             hasPartials := hasPartials block;
             prelude := Some prelude;
             head := Some head |}
          meta (env this) in
      scanLayout scanner
  end.

End WrappedBuilder.

(* ===================================================================== *)
(** ** [class UnwrappedBuilder] *)

Module UnwrappedBuilder.

Record t : Type := mk {
  attrs : ComponentAttrsBuilder.t;
  env : Environment;
  layout : SerializedTemplate
}.

Definition new (env : Environment) (layout : SerializedTemplate) : t :=
  {| attrs := ComponentAttrsBuilder.new; env := env; layout := layout |}.

Definition tag (this : t) : Result ComponentTagBuilder.t :=
  Throw (Error "BUG: Cannot call `tag` on an UnwrappedBuilder").

Definition compile (this : t) : Program :=
  let meta := meta (layout this) in
  let block := block (layout this) in
  let head :=
    match head block with
    | Some h => ComponentAttrsBuilder.buffer (attrs this) ++ h
    | None => ComponentAttrsBuilder.buffer (attrs this)
    end in
  let scanner :=
    new_Scanner
      {| block_statements := block_statements block;
         named := named block;
         yields := yields block;
         hasPartials := hasPartials block;
         prelude := prelude block;
         head := Some head |}
      meta (env this) in
  scanLayout scanner.

End UnwrappedBuilder.

(* ===================================================================== *)
(** ** [class ComponentLayoutBuilder] and [compileLayout] *)

Module ComponentLayoutBuilder.

Inductive strategy : Type :=
| Wrapped (w : WrappedBuilder.t)
| Unwrapped (u : UnwrappedBuilder.t).

(** [inner] has no initialiser: it is [undefined] ([None] here) until
    [wrapLayout] or [fromLayout] assigns it. *)
Record t : Type := mk {
  env : Environment;
  inner : option strategy
}.

Definition new (env : Environment) : t := {| env := env; inner := None |}.

Definition wrapLayout (layout : SerializedTemplate) (this : t) : t :=
  {| env := env this;
     inner := Some (Wrapped (WrappedBuilder.new (env this) layout)) |}.

Definition fromLayout (layout : SerializedTemplate) (this : t) : t :=
  {| env := env this;
     inner := Some (Unwrapped (UnwrappedBuilder.new (env this) layout)) |}.

Definition compile (this : t) : Result Program :=
  match inner this with
  | None => Throw TypeError
  | Some (Wrapped w) => Ok (WrappedBuilder.compile w)
  | Some (Unwrapped u) => Ok (UnwrappedBuilder.compile u)
  end.

Definition tag (this : t) : Result ComponentTagBuilder.t :=
  match inner this with
  | None => Throw TypeError
  | Some (Wrapped w) => Ok (WrappedBuilder.tag w)
  | Some (Unwrapped u) => UnwrappedBuilder.tag u
  end.

Definition attrs (this : t) : Result ComponentAttrsBuilder.t :=
  match inner this with
  | None => Throw TypeError
  | Some (Wrapped w) => Ok (WrappedBuilder.attrs w)
  | Some (Unwrapped u) => Ok (UnwrappedBuilder.attrs u)
  end.

(** What a [CompilableLayout] can do with the builder it is handed:
    bind a strategy, or reach the tag or attribute builder through the
    getters and call it.  The builders are objects; a call made through
    a getter updates the one the bound strategy holds. *)
Inductive call : Type :=
| call_wrapLayout (layout : SerializedTemplate)
| call_fromLayout (layout : SerializedTemplate)
| call_tag (o : ComponentTagBuilder.op)
| call_attrs (o : ComponentAttrsBuilder.op).

Definition is_bind (c : call) : bool :=
  match c with
  | call_wrapLayout _ | call_fromLayout _ => true
  | _ => false
  end.

Definition step (c : call) (this : t) : Result t :=
  match c with
  | call_wrapLayout l => Ok (wrapLayout l this)
  | call_fromLayout l => Ok (fromLayout l this)
  | call_tag o =>
      match inner this with
      | None => Throw TypeError
      | Some (Wrapped w) =>
          Ok {| env := env this;
                inner := Some (Wrapped
                  {| WrappedBuilder.tag :=
                       ComponentTagBuilder.apply o (WrappedBuilder.tag w);
                     WrappedBuilder.attrs := WrappedBuilder.attrs w;
                     WrappedBuilder.env := WrappedBuilder.env w;
                     WrappedBuilder.layout := WrappedBuilder.layout w |}) |}
      | Some (Unwrapped u) =>
          match UnwrappedBuilder.tag u with
          | Throw e => Throw e
          | Ok _ => Ok this
          end
      end
  | call_attrs o =>
      match inner this with
      | None => Throw TypeError
      | Some (Wrapped w) =>
          Ok {| env := env this;
                inner := Some (Wrapped
                  {| WrappedBuilder.tag := WrappedBuilder.tag w;
                     WrappedBuilder.attrs :=
                       ComponentAttrsBuilder.apply o (WrappedBuilder.attrs w);
                     WrappedBuilder.env := WrappedBuilder.env w;
                     WrappedBuilder.layout := WrappedBuilder.layout w |}) |}
      | Some (Unwrapped u) =>
          Ok {| env := env this;
                inner := Some (Unwrapped
                  {| UnwrappedBuilder.attrs :=
                       ComponentAttrsBuilder.apply o (UnwrappedBuilder.attrs u);
                     UnwrappedBuilder.env := UnwrappedBuilder.env u;
                     UnwrappedBuilder.layout := UnwrappedBuilder.layout u |}) |}
      end
  end.

(** A compilable as the calls it makes, in order; an exception ends it. *)
Fixpoint run (calls : list call) (this : t) : Result t :=
  match calls with
  | [] => Ok this
  | c :: rest =>
      match step c this with
      | Ok this' => run rest this'
      | Throw e => Throw e
      end
  end.

End ComponentLayoutBuilder.

(** Modelled from the spec: [compileDynamic] belongs to [Program] in
    [./scanner], which is not among the sources at hand; the spec calls
    it the final linking step keyed by the environment.  It is recorded
    uninterpreted. *)
Inductive CompiledDynamicProgram : Type :=
| compileDynamic (program : Program) (env : Environment).

Definition compileLayout (compilable : list ComponentLayoutBuilder.call)
                         (env : Environment) : Result CompiledDynamicProgram :=
  let builder := ComponentLayoutBuilder.new env in
  match ComponentLayoutBuilder.run compilable builder with
  | Throw e => Throw e
  | Ok builder =>
      match ComponentLayoutBuilder.compile builder with
      | Throw e => Throw e
      | Ok program => Ok (compileDynamic program env)
      end
  end.

(* ===================================================================== *)
(** ** Component arguments *)

(** [ComponentArgs] is the tuple [[params, hash, default, inverse]]; at
    run time it is an array, and [dynamic] tests its [length] and indexes
    it, so it is a list here.  An entry may be [null]. *)
Inductive ArgValue : Type :=
| ArgParams (params : Params)
| ArgHash (keys : list string) (values : list Expression)
| ArgBlock (block : ScannedBlock).

Definition ComponentArgs := list (option ArgValue).

(** [[Ops.ClientSideExpression, ClientSide.Ops.ResolvedHelper, helper,
    a0, a1]] *)
Inductive ResolvedHelperExpression : Type :=
| ClientSideExpression_ResolvedHelper
    (helper : Helper) (a0 a1 : Maybe ArgValue).

(** [[Ops.ClientSideStatement, ClientSide.Ops.ResolvedComponent,
    definition, null, [params, hash], default, inverse]] *)
Inductive ResolvedComponentStatement : Type :=
| ClientSideStatement_ResolvedComponent
    (definition : StaticDefinition) (params hash : Maybe ArgValue)
    (default inverse : Maybe ArgValue).

(** Modelled from the spec: [compileComponentArgs] lives in
    [./syntax/functions], which is not among the sources at hand.  The
    spec says it compiles the named-argument hash into a packed argument
    list, recording the argument count and the ordered list of argument
    names, with count and name list both of the hash's size.  The slot
    dictionary is left uninterpreted. *)
Inductive Slots : Type := slots_of (hash : Maybe ArgValue).

Record CompiledComponentArgs : Type := mkCompiledArgs {
  slots : Slots;
  count : nat;
  names : list string
}.

Definition hash_names (hash : Maybe ArgValue) : list string :=
  match hash with
  | just (ArgHash keys _) => keys
  | _ => []
  end.

(** [new InvokeDynamicLayout(null, names)] *)
Inductive InvokeDynamicLayout : Type :=
| new_InvokeDynamicLayout (attrs : option ScannedBlock) (names : list string).

(* ===================================================================== *)
(** ** The opcode builder, as [dynamic] and [static] use it *)

(** Modelled from the spec: [OpcodeBuilderDSL] is defined in
    [./compiled/opcodes/builder], which is not among the sources at
    hand; the spec consumes it as a capability interface.  The builder is
    therefore a log of the calls made on it, in order, each with its
    arguments, plus a counter from which [local()] hands out fresh slots.
    [unit] and [labelled] run their callback once, at once; their entry
    and return are logged as brackets, and what they emit of their own is
    not represented. *)
Module OpcodeBuilderDSL.

Inductive Call : Type :=
| Enter_unit
| Exit_unit
| Enter_labelled
| Exit_labelled
| Call_local (slot : nat)
| Call_expr (expression : ResolvedHelperExpression)
| Call_compileStatement (statement : ResolvedComponentStatement)
| Call_setLocal (slot : nat)
| Call_getLocal (slot : nat)
| Call_test (testFunc : string)
| Call_jumpUnless (target : string)
| Call_pushDynamicComponentManager (definition : nat)
| Call_setComponentState (state : nat)
| Call_pushBlock (block : Maybe ArgValue)
| Call_compileComponentArgs (hash : Maybe ArgValue)
| Call_pushDynamicScope
| Call_pushComponentArgs (positional count : nat) (slots : Slots)
| Call_createComponent (state : nat) (hasDefault hasInverse : bool)
| Call_registerComponentDestructor (state : nat)
| Call_beginComponentTransaction
| Call_getComponentSelf (state : nat)
| Call_getComponentLayout (state : nat)
| Call_invokeDynamic (invoker : InvokeDynamicLayout)
| Call_didCreateElement (state : nat)
| Call_didRenderLayout (state : nat)
| Call_popScope
| Call_popDynamicScope
| Call_commitComponentTransaction.

Record t : Type := mk {
  symbolTable : SymbolTable;
  env : Environment;
  calls : list Call;
  locals : nat
}.

Definition new (symbolTable : SymbolTable) (env : Environment) : t :=
  {| symbolTable := symbolTable; env := env; calls := []; locals := 0 |}.

(** Code that drives a builder: the builder is mutated in place, so
    what was logged before an exception stays logged. *)
Definition M (A : Type) : Type := t -> Result A * t.

Definition ret {A} (a : A) : M A := fun b => (Ok a, b).

Definition bind {A B} (m : M A) (k : A -> M B) : M B :=
  fun b =>
    match m b with
    | (Ok a, b') => k a b'
    | (Throw e, b') => (Throw e, b')
    end.

Definition throw {A} (e : Exn) : M A := fun b => (Throw e, b).

Definition log (c : Call) : M void :=
  fun b =>
    (Ok tt,
     {| symbolTable := symbolTable b; env := env b;
        calls := calls b ++ [c]; locals := locals b |}).

Definition local : M nat :=
  fun b =>
    (Ok (locals b),
     {| symbolTable := symbolTable b; env := env b;
        calls := calls b ++ [Call_local (locals b)];
        locals := S (locals b) |}).

Declare Scope builder_scope.
Delimit Scope builder_scope with builder.
Notation "x <- m ;; k" := (bind m (fun x => k))
  (at level 100, m at next level, right associativity) : builder_scope.
Notation "m ;; k" := (bind m (fun _ => k))
  (at level 100, right associativity) : builder_scope.
Open Scope builder_scope.

Definition unit (callback : M void) : M void :=
  log Enter_unit ;; callback ;; log Exit_unit.

Definition labelled (callback : M void) : M void :=
  log Enter_labelled ;; callback ;; log Exit_labelled.

Definition compileComponentArgs (hash : Maybe ArgValue) : M CompiledComponentArgs :=
  log (Call_compileComponentArgs hash) ;;
  ret {| slots := slots_of hash;
         count := List.length (hash_names hash);
         names := hash_names hash |}.

(** The name of the builder method (or imported function taking the
    builder) behind a logged call. *)
Definition method (c : Call) : string :=
  match c with
  | Enter_unit | Exit_unit => "unit"
  | Enter_labelled | Exit_labelled => "labelled"
  | Call_local _ => "local"
  | Call_expr _ => "expr"
  | Call_compileStatement _ => "compileStatement"
  | Call_setLocal _ => "setLocal"
  | Call_getLocal _ => "getLocal"
  | Call_test _ => "test"
  | Call_jumpUnless _ => "jumpUnless"
  | Call_pushDynamicComponentManager _ => "pushDynamicComponentManager"
  | Call_setComponentState _ => "setComponentState"
  | Call_pushBlock _ => "pushBlock"
  | Call_compileComponentArgs _ => "compileComponentArgs"
  | Call_pushDynamicScope => "pushDynamicScope"
  | Call_pushComponentArgs _ _ _ => "pushComponentArgs"
  | Call_createComponent _ _ _ => "createComponent"
  | Call_registerComponentDestructor _ => "registerComponentDestructor"
  | Call_beginComponentTransaction => "beginComponentTransaction"
  | Call_getComponentSelf _ => "getComponentSelf"
  | Call_getComponentLayout _ => "getComponentLayout"
  | Call_invokeDynamic _ => "invokeDynamic"
  | Call_didCreateElement _ => "didCreateElement"
  | Call_didRenderLayout _ => "didRenderLayout"
  | Call_popScope => "popScope"
  | Call_popDynamicScope => "popDynamicScope"
  | Call_commitComponentTransaction => "commitComponentTransaction"
  end.

Definition is_bracket (c : Call) : bool :=
  match c with
  | Enter_unit | Exit_unit | Enter_labelled | Exit_labelled => true
  | _ => false
  end.

(** The steps in a log: every call but the brackets. *)
Definition steps (l : list Call) : list Call :=
  filter (fun c => negb (is_bracket c)) l.

(** Index of the first step made through method [m], if any. *)
Fixpoint position (m : string) (l : list Call) : option nat :=
  match l with
  | [] => None
  | c :: r =>
      if String.eqb (method c) m then Some 0
      else option_map S (position m r)
  end.

(** How many steps were made through method [m]. *)
Definition times (m : string) (l : list Call) : nat :=
  List.length (filter (fun c => String.eqb (method c) m) l).

(** The same builder with an empty log. *)
Definition clear_log (b : t) : t :=
  {| symbolTable := symbolTable b; env := env b; calls := []; locals := locals b |}.

(** What running [m] on builder [b] adds to the log. *)
Definition added {A} (m : M A) (b : t) : list Call :=
  skipn (List.length (calls b)) (calls (snd (m b))).

End OpcodeBuilderDSL.

(* ===================================================================== *)
(** ** [class ComponentBuilder] *)

Module ComponentBuilder.
Import OpcodeBuilderDSL.

(** [this.builder] is the builder the computations below run on;
    [this.env] is a copy of its [env]. *)
Record t : Type := mk {
  builder : OpcodeBuilderDSL.t;
  env : Environment
}.

Definition new (builder : OpcodeBuilderDSL.t) : t :=
  {| builder := builder; env := OpcodeBuilderDSL.env builder |}.

Definition static (definition : StaticDefinition) (args : ComponentArgs)
                  (_symbolTable : SymbolTable) : M void :=
  let params := js_index args 0 in
  let hash := js_index args 1 in
  let _default := js_index args 2 in
  let inverse := js_index args 3 in
  let syntax :=
    ClientSideStatement_ResolvedComponent definition params hash _default inverse in
  log (Call_compileStatement syntax).

Definition dynamic (definitionArgs : option ComponentArgs) (getDefinition : Helper)
                   (args : ComponentArgs) (_symbolTable : SymbolTable) : M void :=
  unit (
    let hash := js_index args 1 in
    let block := js_index args 2 in
    let inverse := js_index args 3 in
    match definitionArgs with
    | None => throw (Error "Dynamic syntax without an argument")
    | Some definitionArgs =>
      if Nat.eqb (List.length definitionArgs) 0
      then throw (Error "Dynamic syntax without an argument")
      else
        definition <- local ;;
        state <- local ;;
        log (Call_expr (ClientSideExpression_ResolvedHelper getDefinition
               (js_index definitionArgs 0) (js_index definitionArgs 1))) ;;

        log (Call_setLocal definition) ;;
        log (Call_getLocal definition) ;;
        log (Call_test "simple") ;;

        labelled (
          log (Call_jumpUnless "END") ;;

          log (Call_pushDynamicComponentManager definition) ;;
          log (Call_setComponentState state) ;;

          log (Call_pushBlock block) ;;
          log (Call_pushBlock inverse) ;;
          compiled <- compileComponentArgs hash ;;

          log Call_pushDynamicScope ;;
          log (Call_pushComponentArgs 0 (count compiled) (slots compiled)) ;;
          log (Call_createComponent state true false) ;;
          log (Call_registerComponentDestructor state) ;;
          log Call_beginComponentTransaction ;;

          log (Call_getComponentSelf state) ;;
          log (Call_getComponentLayout state) ;;
          log (Call_invokeDynamic (new_InvokeDynamicLayout None (names compiled))) ;;
          log (Call_didCreateElement state) ;;

          log (Call_didRenderLayout state) ;;
          log Call_popScope ;;
          log Call_popDynamicScope ;;
          log Call_commitComponentTransaction)
    end).

(** Run a method on the component builder's own [builder]. *)
Definition on {A} (this : t) (m : M A) : Result A * t :=
  let (r, b) := m (builder this) in
  (r, {| builder := b; env := env this |}).

End ComponentBuilder.

(** [export function builder(env, symbolTable)] *)
Definition builder (env : Environment) (symbolTable : SymbolTable) : OpcodeBuilderDSL.t :=
  OpcodeBuilderDSL.new symbolTable env.


(* ===================================================================== *)
(** ** Sample inputs *)

(** A template without prelude and head, one with both, one with a head
    only. *)
Definition plain_template : SerializedTemplate :=
  {| block := {| block_statements := [Text "hi"]; named := []; yields := ["default"];
                 hasPartials := false; prelude := None; head := None |};
     meta := Meta 0 |}.

Definition rooted_template : SerializedTemplate :=
  {| block := {| block_statements := [Text "hi"; CloseElement]; named := [];
                 yields := ["default"]; hasPartials := false;
                 prelude := Some [OpenElement "p" []];
                 head := Some [StaticAttr "id" "x" None] |};
     meta := Meta 0 |}.

Definition head_only_template : SerializedTemplate :=
  {| block := {| block_statements := [Text "hi"]; named := []; yields := ["default"];
                 hasPartials := false; prelude := None;
                 head := Some [StaticAttr "id" "x" None] |};
     meta := Meta 0 |}.

Definition sample_attrs : list ComponentAttrsBuilder.op :=
  [ComponentAttrsBuilder.call_static "class" "a";
   ComponentAttrsBuilder.call_dynamic "title" (FunctionRef 7)].

(** A Wrapped builder configured with a dynamic tag, and one with a
    static tag. *)
Definition wrapped_dynamic (layout : SerializedTemplate) : WrappedBuilder.t :=
  {| WrappedBuilder.tag :=
       ComponentTagBuilder.dynamic (FunctionRef 7) ComponentTagBuilder.new;
     WrappedBuilder.attrs :=
       ComponentAttrsBuilder.run sample_attrs ComponentAttrsBuilder.new;
     WrappedBuilder.env := Env 0;
     WrappedBuilder.layout := layout |}.

Definition wrapped_static (layout : SerializedTemplate) : WrappedBuilder.t :=
  {| WrappedBuilder.tag :=
       ComponentTagBuilder.static "div" ComponentTagBuilder.new;
     WrappedBuilder.attrs :=
       ComponentAttrsBuilder.run sample_attrs ComponentAttrsBuilder.new;
     WrappedBuilder.env := Env 0;
     WrappedBuilder.layout := layout |}.

Definition sample_table : SymbolTable := layoutTable (Meta 0) [] [] false.

Definition sample_args : ComponentArgs :=
  [Some (ArgParams [Get ["x"]]);
   Some (ArgHash ["a"; "b"] [Value "1"; Value "2"]);
   None; None].

(* ===================================================================== *)
(** ** Reading a compiled program and a bound strategy *)

(** The environment the scanning stage was handed. *)
Definition program_env (p : Program) : Environment :=
  match p with
  | RawTemplate (scanBlock _ _ env) _ => env
  | scanLayout (new_Scanner _ _ env) => env
  end.

(** The [env] field of whichever builder the facade holds. *)
Definition strategy_env (s : ComponentLayoutBuilder.strategy) : Environment :=
  match s with
  | ComponentLayoutBuilder.Wrapped w => WrappedBuilder.env w
  | ComponentLayoutBuilder.Unwrapped u => UnwrappedBuilder.env u
  end.




(** A second argument list for the invocation compiler: other positional
    parameters and a fifth entry, the same hash and blocks as
    [sample_args]. *)
Definition other_args : ComponentArgs :=
  [Some (ArgParams [Value "other"]);
   Some (ArgHash ["a"; "b"] [Value "1"; Value "2"]);
   None; None;
   Some (ArgParams [Value "fifth"])].

(* ===================================================================== *)
(** * Theorems *)

(** ** Lists and expressions *)

Lemma sum_with_app {A} (f : A -> nat) (l1 l2 : list A) :
  sum_with f (l1 ++ l2) = sum_with f l1 + sum_with f l2.
Proof.
  induction l1 as [|x r IH]; simpl.
  - reflexivity.
  - rewrite IH. lia.
Qed.

Lemma occurrences_app (e : Expression) (l1 l2 : list Statement) :
  occurrences e (l1 ++ l2) = occurrences e l1 + occurrences e l2.
Proof. apply sum_with_app. Qed.

Lemma list_eqb_spec {A} (f : A -> A -> bool) (l1 : list A) :
  Forall (fun x => forall y, f x y = true <-> x = y) l1 ->
  forall l2, list_eqb f l1 l2 = true <-> l1 = l2.
Proof.
  induction 1 as [|x r Hx _ IH]; intros [|y r2]; simpl;
    try (split; [discriminate | discriminate]); try tauto.
  rewrite andb_true_iff, Hx, IH.
  split.
  - intros [-> ->]. reflexivity.
  - intros E. injection E as -> ->. split; reflexivity.
Qed.

Lemma string_list_eqb_spec (l1 l2 : list string) :
  list_eqb String.eqb l1 l2 = true <-> l1 = l2.
Proof.
  apply list_eqb_spec. apply Forall_forall. intros x _ y. apply String.eqb_eq.
Qed.

(** Induction on expressions that reaches the expressions held in the
    lists of [Concat] and [HelperCall]. *)
Section Expression_induction.
Variable P : Expression -> Prop.
Hypothesis HUnknown : forall p, P (Unknown p).
Hypothesis HGet : forall p, P (Get p).
Hypothesis HFix : forall p, P (FixThisBeforeWeMerge p).
Hypothesis HValue : forall v, P (Value v).
Hypothesis HConcat : forall ps, Forall P ps -> P (Concat ps).
Hypothesis HHelper : forall p ps h,
  Forall P ps ->
  Forall P (match h with Some (_, vs) => vs | None => [] end) ->
  P (HelperCall p ps h).
Hypothesis HFunction : forall f, P (ClientSideExpression_FunctionExpression f).

Fixpoint Expression_nested_ind (x : Expression) : P x :=
  let all := fix all (l : list Expression) : Forall P l :=
    match l with
    | [] => Forall_nil P
    | y :: r => Forall_cons y (Expression_nested_ind y) (all r)
    end in
  match x with
  | Unknown p => HUnknown p
  | Get p => HGet p
  | FixThisBeforeWeMerge p => HFix p
  | Value v => HValue v
  | Concat ps => @HConcat ps (all ps)
  | HelperCall p ps h =>
      @HHelper p ps h (all ps)
        (match h as h0
               return Forall P (match h0 with Some (_, vs) => vs | None => [] end)
         with
         | Some (_, vs) => all vs
         | None => Forall_nil P
         end)
  | ClientSideExpression_FunctionExpression f => HFunction f
  end.
End Expression_induction.

Lemma Expression_eqb_eq (a b : Expression) :
  Expression_eqb a b = true <-> a = b.
Proof.
  revert b.
  induction a as [p|p|p|v|ps IH|p ps h IHps IHh|f] using Expression_nested_ind;
    intros b; destruct b; simpl;
    try (split; [discriminate | discriminate]).
  - unfold Path_eqb. rewrite string_list_eqb_spec. split; congruence.
  - unfold Path_eqb. rewrite string_list_eqb_spec. split; congruence.
  - unfold Path_eqb. rewrite string_list_eqb_spec. split; congruence.
  - rewrite String.eqb_eq. split; congruence.
  - rewrite (list_eqb_spec _ IH). split; congruence.
  - rewrite !andb_true_iff. unfold Path_eqb.
    rewrite string_list_eqb_spec, (list_eqb_spec _ IHps).
    destruct h as [[ks vs]|], hash as [[ks' vs']|].
    + rewrite andb_true_iff, string_list_eqb_spec, (list_eqb_spec _ IHh).
      split.
      * intros [[-> ->] [-> ->]]. reflexivity.
      * intros E. injection E as -> -> -> ->. repeat split.
    + split; [intros [_ E]; discriminate | discriminate].
    + split; [intros [_ E]; discriminate | discriminate].
    + split.
      * intros [[-> ->] _]. reflexivity.
      * intros E. injection E as -> ->. repeat split.
  - destruct f as [n], f0 as [m]. simpl. rewrite Nat.eqb_eq. split; congruence.
Qed.

Lemma Expression_eqb_refl (e : Expression) : Expression_eqb e e = true.
Proof. apply Expression_eqb_eq. reflexivity. Qed.

Lemma occurrences_in_expression_self (e : Expression) :
  occurrences_in_expression e e = 1.
Proof.
  destruct e; simpl; rewrite ?Expression_eqb_refl; try reflexivity.
  - unfold Path_eqb.
    rewrite (proj2 (string_list_eqb_spec path path) eq_refl). reflexivity.
  - unfold Path_eqb.
    rewrite (proj2 (string_list_eqb_spec path path) eq_refl). reflexivity.
  - unfold Path_eqb.
    rewrite (proj2 (string_list_eqb_spec path path) eq_refl). reflexivity.
  - rewrite String.eqb_refl. reflexivity.
  - change (list_eqb Expression_eqb parts parts)
      with (Expression_eqb (Concat parts) (Concat parts)).
    rewrite Expression_eqb_refl. reflexivity.
  - change ((if Expression_eqb (HelperCall path params hash) (HelperCall path params hash)
             then 1 else
             sum_with (occurrences_in_expression (HelperCall path params hash)) params +
             match hash with
             | Some (_, vs) =>
                 sum_with (occurrences_in_expression (HelperCall path params hash)) vs
             | None => 0
             end) = 1).
    rewrite Expression_eqb_refl. reflexivity.
  - destruct f. simpl. rewrite Nat.eqb_refl. reflexivity.
Qed.

(* ===================================================================== *)
(** ** The tag builder *)

Lemma tag_run_flags (ops : list ComponentTagBuilder.op) :
  forall this,
    truthy_flag (ComponentTagBuilder.isStatic (ComponentTagBuilder.run ops this))
      = existsb ComponentTagBuilder.is_static_op ops
        || truthy_flag (ComponentTagBuilder.isStatic this)
    /\
    truthy_flag (ComponentTagBuilder.isDynamic (ComponentTagBuilder.run ops this))
      = existsb ComponentTagBuilder.is_dynamic_op ops
        || truthy_flag (ComponentTagBuilder.isDynamic this).
Proof.
  unfold ComponentTagBuilder.run.
  induction ops as [|o ops IH]; intros this; simpl.
  - split; reflexivity.
  - destruct (IH (ComponentTagBuilder.apply o this)) as [Hs Hd].
    rewrite Hs, Hd.
    destruct o; simpl; rewrite ?orb_true_r; split; reflexivity.
Qed.

(** C3, as the claim states it, fails: after [dynamic] then [static] both
    flags are set, and the dynamic expression recorded first is still
    what [getDynamic] returns. *)
Lemma tag_static_after_dynamic_keeps_both :
  ComponentTagBuilder.both_set
    (ComponentTagBuilder.run
       [ComponentTagBuilder.call_dynamic (FunctionRef 0);
        ComponentTagBuilder.call_static "div"]
       ComponentTagBuilder.new) = true
  /\
  ComponentTagBuilder.getDynamic
    (ComponentTagBuilder.static "div"
       (ComponentTagBuilder.dynamic (FunctionRef 0) ComponentTagBuilder.new))
  = just (ClientSideExpression_FunctionExpression (FunctionRef 0))
  /\
  ComponentTagBuilder.getStatic
    (ComponentTagBuilder.dynamic (FunctionRef 0)
       (ComponentTagBuilder.static "div" ComponentTagBuilder.new))
  = just "div".
Proof. repeat split. Qed.

(** C3, amended: [static name] sets the static flag and records the name
    and leaves the dynamic flag and expression as they were; [dynamic f]
    sets the dynamic flag and records the expression wrapping [f] and
    leaves the static flag and name as they were.  No call clears a flag:
    after any sequence of calls on a new tag builder the static flag is
    set exactly when [static] was called, and the dynamic flag exactly
    when [dynamic] was called. *)
Theorem tag_calls_set_and_never_clear :
  (forall name this,
     ComponentTagBuilder.isStatic (ComponentTagBuilder.static name this) = Some true /\
     ComponentTagBuilder.staticTagName (ComponentTagBuilder.static name this) = Some name /\
     ComponentTagBuilder.isDynamic (ComponentTagBuilder.static name this)
       = ComponentTagBuilder.isDynamic this /\
     ComponentTagBuilder.dynamicTagName (ComponentTagBuilder.static name this)
       = ComponentTagBuilder.dynamicTagName this)
  /\
  (forall f this,
     ComponentTagBuilder.isDynamic (ComponentTagBuilder.dynamic f this) = Some true /\
     ComponentTagBuilder.dynamicTagName (ComponentTagBuilder.dynamic f this)
       = Some (ClientSideExpression_FunctionExpression f) /\
     ComponentTagBuilder.isStatic (ComponentTagBuilder.dynamic f this)
       = ComponentTagBuilder.isStatic this /\
     ComponentTagBuilder.staticTagName (ComponentTagBuilder.dynamic f this)
       = ComponentTagBuilder.staticTagName this)
  /\
  (forall ops,
     truthy_flag (ComponentTagBuilder.isStatic
                    (ComponentTagBuilder.run ops ComponentTagBuilder.new))
       = existsb ComponentTagBuilder.is_static_op ops /\
     truthy_flag (ComponentTagBuilder.isDynamic
                    (ComponentTagBuilder.run ops ComponentTagBuilder.new))
       = existsb ComponentTagBuilder.is_dynamic_op ops).
Proof.
  split; [|split].
  - intros name this. repeat split.
  - intros f this. repeat split.
  - intros ops.
    destruct (tag_run_flags ops ComponentTagBuilder.new) as [Hs Hd].
    rewrite Hs, Hd. simpl. rewrite !orb_false_r. split; reflexivity.
Qed.

(* ===================================================================== *)
(** ** The attribute builder *)

Lemma attrs_run_buffer (ops : list ComponentAttrsBuilder.op) :
  forall this,
    ComponentAttrsBuilder.buffer (ComponentAttrsBuilder.run ops this)
    = ComponentAttrsBuilder.buffer this ++ map ComponentAttrsBuilder.entry ops.
Proof.
  unfold ComponentAttrsBuilder.run.
  induction ops as [|o ops IH]; intros this; simpl.
  - rewrite app_nil_r. reflexivity.
  - rewrite IH. destruct o; simpl; rewrite <- app_assoc; reflexivity.
Qed.

(* ===================================================================== *)
(** ** The Wrapped strategy, dynamic tag *)

Lemma wrapped_compile_dynamic (w : WrappedBuilder.t) (e : Expression) :
  ComponentTagBuilder.getDynamic (WrappedBuilder.tag w) = just e ->
  scanned_from (WrappedBuilder.compile w)
  = Some ([WrappedBuilder.open_guard e
             (ComponentAttrsBuilder.buffer (WrappedBuilder.attrs w))]
          ++ WrappedBuilder.statements_of (block (WrappedBuilder.layout w))
          ++ [WrappedBuilder.close_guard e]).
Proof.
  intros H. unfold WrappedBuilder.compile. rewrite H. reflexivity.
Qed.

Lemma wrapped_compile_static (w : WrappedBuilder.t) :
  (forall e, ComponentTagBuilder.getDynamic (WrappedBuilder.tag w) <> just e) ->
  scanner_block (WrappedBuilder.compile w)
  = Some {| block_statements := block_statements (block (WrappedBuilder.layout w));
            named := named (block (WrappedBuilder.layout w));
            yields := yields (block (WrappedBuilder.layout w));
            hasPartials := hasPartials (block (WrappedBuilder.layout w));
            prelude := Some [ClientSideStatement_OpenComponentElement
                               (ComponentTagBuilder.getStatic (WrappedBuilder.tag w))];
            head := Some (ComponentAttrsBuilder.buffer (WrappedBuilder.attrs w)) |}.
Proof.
  intros H. unfold WrappedBuilder.compile.
  destruct (ComponentTagBuilder.getDynamic (WrappedBuilder.tag w)) as [| |e];
    try reflexivity.
  exfalso. apply (H e). reflexivity.
Qed.

Lemma occurrences_open_guard (f : FunctionExpression) (buffer : list Statement) :
  occurrences (ClientSideExpression_FunctionExpression f)
    [WrappedBuilder.open_guard (ClientSideExpression_FunctionExpression f) buffer]
  = 1 + occurrences (ClientSideExpression_FunctionExpression f) buffer.
Proof.
  unfold occurrences, WrappedBuilder.open_guard. simpl.
  change (sum_with (occurrences_in_statement (ClientSideExpression_FunctionExpression f))
            (buffer ++ [FlushElement]))
    with (occurrences (ClientSideExpression_FunctionExpression f) (buffer ++ [FlushElement])).
  rewrite occurrences_app.
  destruct f as [n]. simpl. rewrite Nat.eqb_refl. simpl.
  unfold occurrences. lia.
Qed.

Lemma occurrences_close_guard (e : Expression) :
  occurrences e [WrappedBuilder.close_guard e] = 1.
Proof.
  unfold occurrences, WrappedBuilder.close_guard.
  cbn [sum_with occurrences_in_statement occurrences_in_hash statements].
  rewrite occurrences_in_expression_self. reflexivity.
Qed.

(** C1, as the claim states it, fails: with the tag set by [dynamic],
    no attributes and a template that is one text node, the statement
    list handed to scanning holds the tag expression in evaluated
    position twice, not once: it is the parameter of the opening guard
    and again the parameter of the closing guard. *)
Lemma wrapped_dynamic_tag_occurs_twice :
  option_map
    (occurrences (ClientSideExpression_FunctionExpression (FunctionRef 7)))
    (scanned_from
       (WrappedBuilder.compile
          {| WrappedBuilder.tag :=
               ComponentTagBuilder.dynamic (FunctionRef 7) ComponentTagBuilder.new;
             WrappedBuilder.attrs := ComponentAttrsBuilder.new;
             WrappedBuilder.env := Env 0;
             WrappedBuilder.layout := plain_template |}))
  = Some 2
  /\
  option_map
    (occurrences (ClientSideExpression_FunctionExpression (FunctionRef 7)))
    (scanned_from
       (WrappedBuilder.compile
          {| WrappedBuilder.tag :=
               ComponentTagBuilder.dynamic (FunctionRef 7) ComponentTagBuilder.new;
             WrappedBuilder.attrs := ComponentAttrsBuilder.new;
             WrappedBuilder.env := Env 0;
             WrappedBuilder.layout := plain_template |}))
  <> Some 1.
Proof. split; [reflexivity | discriminate]. Qed.

(** C1, amended: for every Wrapped compilation whose tag was set by
    [dynamic f], the statement list handed to scanning is the opening
    [with] guard, the template statements, and the closing [if] guard;
    each guard carries the tag expression as its own parameter, so the
    expression stands in evaluated position once per guard, twice in
    all, beside whatever occurrences the attribute buffer and the
    template hold. *)
Theorem wrapped_dynamic_tag_evaluated_by_each_guard
    (w : WrappedBuilder.t) (f : FunctionExpression) :
  ComponentTagBuilder.getDynamic (WrappedBuilder.tag w)
    = just (ClientSideExpression_FunctionExpression f) ->
  scanned_from (WrappedBuilder.compile w)
    = Some ([WrappedBuilder.open_guard (ClientSideExpression_FunctionExpression f)
               (ComponentAttrsBuilder.buffer (WrappedBuilder.attrs w))]
            ++ WrappedBuilder.statements_of (block (WrappedBuilder.layout w))
            ++ [WrappedBuilder.close_guard (ClientSideExpression_FunctionExpression f)])
  /\
  option_map (occurrences (ClientSideExpression_FunctionExpression f))
             (scanned_from (WrappedBuilder.compile w))
    = Some (2
            + occurrences (ClientSideExpression_FunctionExpression f)
                (ComponentAttrsBuilder.buffer (WrappedBuilder.attrs w))
            + occurrences (ClientSideExpression_FunctionExpression f)
                (WrappedBuilder.statements_of (block (WrappedBuilder.layout w)))).
Proof.
  intros H. rewrite (wrapped_compile_dynamic w H). split; [reflexivity|].
  unfold option_map. f_equal.
  rewrite (occurrences_app _ [WrappedBuilder.open_guard _ _] _).
  rewrite occurrences_app, occurrences_open_guard, occurrences_close_guard.
  lia.
Qed.

Lemma wrapped_dynamic_tag_evaluated_by_each_guard_witness :
  ComponentTagBuilder.getDynamic (WrappedBuilder.tag (wrapped_dynamic plain_template))
    = just (ClientSideExpression_FunctionExpression (FunctionRef 7))
  /\
  option_map (occurrences (ClientSideExpression_FunctionExpression (FunctionRef 7)))
             (scanned_from (WrappedBuilder.compile (wrapped_dynamic plain_template)))
    = Some 3.
Proof.
  split; [reflexivity|].
  apply (wrapped_dynamic_tag_evaluated_by_each_guard
           (wrapped_dynamic plain_template) (f := FunctionRef 7)).
  reflexivity.
Defined.

(** C9: in the dynamic-tag path the template's prelude and head enter the
    compiled body only when both are present, in the order prelude, head,
    statements; when either is [null] the body between the two guards is
    the template's statement list alone. *)
Theorem wrapped_dynamic_body_needs_prelude_and_head
    (w : WrappedBuilder.t) (e : Expression) :
  ComponentTagBuilder.getDynamic (WrappedBuilder.tag w) = just e ->
  (forall p h,
     prelude (block (WrappedBuilder.layout w)) = Some p ->
     head (block (WrappedBuilder.layout w)) = Some h ->
     scanned_from (WrappedBuilder.compile w)
     = Some ([WrappedBuilder.open_guard e
                (ComponentAttrsBuilder.buffer (WrappedBuilder.attrs w))]
             ++ (p ++ h ++ block_statements (block (WrappedBuilder.layout w)))
             ++ [WrappedBuilder.close_guard e]))
  /\
  (prelude (block (WrappedBuilder.layout w)) = None \/
   head (block (WrappedBuilder.layout w)) = None ->
   scanned_from (WrappedBuilder.compile w)
   = Some ([WrappedBuilder.open_guard e
              (ComponentAttrsBuilder.buffer (WrappedBuilder.attrs w))]
           ++ block_statements (block (WrappedBuilder.layout w))
           ++ [WrappedBuilder.close_guard e])).
Proof.
  intros H. rewrite (wrapped_compile_dynamic w H).
  unfold WrappedBuilder.statements_of. split.
  - intros p h Hp Hh. rewrite Hp, Hh, <- (app_assoc p h). reflexivity.
  - intros [Hp | Hh].
    + rewrite Hp. reflexivity.
    + rewrite Hh. destruct (prelude _); reflexivity.
Qed.

Lemma wrapped_dynamic_body_needs_prelude_and_head_witness :
  (ComponentTagBuilder.getDynamic (WrappedBuilder.tag (wrapped_dynamic head_only_template))
     = just (ClientSideExpression_FunctionExpression (FunctionRef 7))
   /\
   prelude (block (WrappedBuilder.layout (wrapped_dynamic head_only_template))) = None)
  /\
  scanned_from (WrappedBuilder.compile (wrapped_dynamic head_only_template))
  = Some [WrappedBuilder.open_guard
            (ClientSideExpression_FunctionExpression (FunctionRef 7))
            [StaticAttr "class" "a" None;
             DynamicAttr "title"
               (ClientSideExpression_FunctionExpression (FunctionRef 7)) None];
          Text "hi";
          WrappedBuilder.close_guard
            (ClientSideExpression_FunctionExpression (FunctionRef 7))].
Proof.
  split; [split; reflexivity|].
  apply (proj2 (wrapped_dynamic_body_needs_prelude_and_head
                  (wrapped_dynamic head_only_template) eq_refl)).
  left. reflexivity.
Defined.

(* ===================================================================== *)
(** ** Where the attribute buffer goes *)

(** C2, as the claim states it, fails on the Wrapped static-tag path:
    the head handed to the scanner is the buffer alone; the template's
    own head statement is not appended to it. *)
Lemma wrapped_static_head_is_buffer_only :
  head (block (WrappedBuilder.layout (wrapped_static rooted_template)))
    = Some [StaticAttr "id" "x" None]
  /\
  option_map head (scanner_block (WrappedBuilder.compile (wrapped_static rooted_template)))
    = Some (Some (map ComponentAttrsBuilder.entry sample_attrs))
  /\
  option_map head (scanner_block (WrappedBuilder.compile (wrapped_static rooted_template)))
    <> Some (Some (map ComponentAttrsBuilder.entry sample_attrs
                   ++ [StaticAttr "id" "x" None])).
Proof. split; [reflexivity | split; [reflexivity | discriminate]]. Qed.

(** C2, amended: the Attribute Buffer holds one entry per call, in call
    order.  The Unwrapped strategy hands the scanner the buffer followed
    by the template's own head (the buffer alone when the template has
    none).  The Wrapped dynamic-tag path puts the buffer, in order,
    inside the opening guard, which comes before the template's prelude,
    head and statements.  The Wrapped static-tag path hands the scanner
    the buffer, in order, as the whole head, and the open-element
    statement as the whole prelude. *)
Theorem attribute_buffer_placement
    (ops : list ComponentAttrsBuilder.op) (tag : ComponentTagBuilder.t)
    (env : Environment) (layout : SerializedTemplate) :
  let attrs := ComponentAttrsBuilder.run ops ComponentAttrsBuilder.new in
  let entries := map ComponentAttrsBuilder.entry ops in
  ComponentAttrsBuilder.buffer attrs = entries
  /\
  option_map head
    (scanner_block
       (UnwrappedBuilder.compile
          {| UnwrappedBuilder.attrs := attrs;
             UnwrappedBuilder.env := env;
             UnwrappedBuilder.layout := layout |}))
  = Some (Some (entries ++ match head (block layout) with
                           | Some h => h
                           | None => []
                           end))
  /\
  (forall e,
     ComponentTagBuilder.getDynamic tag = just e ->
     scanned_from
       (WrappedBuilder.compile
          {| WrappedBuilder.tag := tag; WrappedBuilder.attrs := attrs;
             WrappedBuilder.env := env; WrappedBuilder.layout := layout |})
     = Some ([WrappedBuilder.open_guard e entries]
             ++ WrappedBuilder.statements_of (block layout)
             ++ [WrappedBuilder.close_guard e]))
  /\
  ((forall e, ComponentTagBuilder.getDynamic tag <> just e) ->
   option_map head
     (scanner_block
        (WrappedBuilder.compile
           {| WrappedBuilder.tag := tag; WrappedBuilder.attrs := attrs;
              WrappedBuilder.env := env; WrappedBuilder.layout := layout |}))
   = Some (Some entries)
   /\
   option_map prelude
     (scanner_block
        (WrappedBuilder.compile
           {| WrappedBuilder.tag := tag; WrappedBuilder.attrs := attrs;
              WrappedBuilder.env := env; WrappedBuilder.layout := layout |}))
   = Some (Some [ClientSideStatement_OpenComponentElement
                   (ComponentTagBuilder.getStatic tag)])).
Proof.
  intros attrs entries.
  assert (Hb : ComponentAttrsBuilder.buffer attrs = entries).
  { unfold attrs, entries. rewrite attrs_run_buffer. reflexivity. }
  split; [exact Hb|]. split; [|split].
  - unfold UnwrappedBuilder.compile. simpl. rewrite Hb.
    destruct (head (block layout)); [reflexivity|].
    rewrite app_nil_r. reflexivity.
  - intros e He.
    rewrite (wrapped_compile_dynamic
               {| WrappedBuilder.tag := tag; WrappedBuilder.attrs := attrs;
                  WrappedBuilder.env := env; WrappedBuilder.layout := layout |} He).
    simpl. rewrite Hb. reflexivity.
  - intros Hs.
    rewrite (wrapped_compile_static
               {| WrappedBuilder.tag := tag; WrappedBuilder.attrs := attrs;
                  WrappedBuilder.env := env; WrappedBuilder.layout := layout |} Hs).
    simpl. rewrite Hb. split; reflexivity.
Qed.

Lemma attribute_buffer_placement_witness :
  (ComponentTagBuilder.getDynamic
     (ComponentTagBuilder.dynamic (FunctionRef 7) ComponentTagBuilder.new)
   = just (ClientSideExpression_FunctionExpression (FunctionRef 7))
   /\
   forall e,
     ComponentTagBuilder.getDynamic
       (ComponentTagBuilder.static "div" ComponentTagBuilder.new) <> just e)
  /\
  scanned_from (WrappedBuilder.compile (wrapped_dynamic rooted_template))
  = Some [WrappedBuilder.open_guard
            (ClientSideExpression_FunctionExpression (FunctionRef 7))
            [StaticAttr "class" "a" None;
             DynamicAttr "title"
               (ClientSideExpression_FunctionExpression (FunctionRef 7)) None];
          OpenElement "p" []; StaticAttr "id" "x" None; Text "hi"; CloseElement;
          WrappedBuilder.close_guard
            (ClientSideExpression_FunctionExpression (FunctionRef 7))]
  /\
  option_map head (scanner_block (WrappedBuilder.compile (wrapped_static rooted_template)))
  = Some (Some [StaticAttr "class" "a" None;
                DynamicAttr "title"
                  (ClientSideExpression_FunctionExpression (FunctionRef 7)) None]).
Proof.
  split; [split; [reflexivity | discriminate]|].
  split.
  - apply (proj1 (proj2 (proj2
             (attribute_buffer_placement sample_attrs
                (ComponentTagBuilder.dynamic (FunctionRef 7) ComponentTagBuilder.new)
                (Env 0) rooted_template)))
             (ClientSideExpression_FunctionExpression (FunctionRef 7))).
    reflexivity.
  - apply (proj2 (proj2 (proj2
             (attribute_buffer_placement sample_attrs
                (ComponentTagBuilder.static "div" ComponentTagBuilder.new)
                (Env 0) rooted_template)))).
    discriminate.
Defined.

(* ===================================================================== *)
(** ** The Unwrapped strategy has no tag *)

(** C6: reading [tag] from an Unwrapped builder throws, whatever the
    builder holds; so does reading it through a facade bound to that
    builder, and so does any tag call a compilable makes there. *)
Theorem unwrapped_tag_throws :
  (forall u : UnwrappedBuilder.t,
     UnwrappedBuilder.tag u
     = Throw (Error "BUG: Cannot call `tag` on an UnwrappedBuilder"))
  /\
  (forall (env : Environment) (u : UnwrappedBuilder.t),
     ComponentLayoutBuilder.tag
       {| ComponentLayoutBuilder.env := env;
          ComponentLayoutBuilder.inner := Some (ComponentLayoutBuilder.Unwrapped u) |}
     = Throw (Error "BUG: Cannot call `tag` on an UnwrappedBuilder"))
  /\
  (forall (env : Environment) (u : UnwrappedBuilder.t) (o : ComponentTagBuilder.op),
     ComponentLayoutBuilder.step (ComponentLayoutBuilder.call_tag o)
       {| ComponentLayoutBuilder.env := env;
          ComponentLayoutBuilder.inner := Some (ComponentLayoutBuilder.Unwrapped u) |}
     = Throw (Error "BUG: Cannot call `tag` on an UnwrappedBuilder")).
Proof. repeat split. Qed.

(* ===================================================================== *)
(** ** The facade *)

Lemma run_app (c1 c2 : list ComponentLayoutBuilder.call) :
  forall this,
    ComponentLayoutBuilder.run (c1 ++ c2) this
    = match ComponentLayoutBuilder.run c1 this with
      | Ok this' => ComponentLayoutBuilder.run c2 this'
      | Throw e => Throw e
      end.
Proof.
  induction c1 as [|c r IH]; intros this; simpl.
  - reflexivity.
  - destruct (ComponentLayoutBuilder.step c this); [apply IH | reflexivity].
Qed.

Lemma step_keeps_env (c : ComponentLayoutBuilder.call) (this this' : ComponentLayoutBuilder.t) :
  ComponentLayoutBuilder.step c this = Ok this' ->
  ComponentLayoutBuilder.env this' = ComponentLayoutBuilder.env this.
Proof.
  destruct c; simpl.
  - intros E. injection E as <-. reflexivity.
  - intros E. injection E as <-. reflexivity.
  - destruct (ComponentLayoutBuilder.inner this) as [[w|u]|]; simpl;
      try discriminate.
    intros E. injection E as <-. reflexivity.
  - destruct (ComponentLayoutBuilder.inner this) as [[w|u]|]; simpl;
      try discriminate; intros E; injection E as <-; reflexivity.
Qed.

Lemma run_keeps_env (calls : list ComponentLayoutBuilder.call) :
  forall this this',
    ComponentLayoutBuilder.run calls this = Ok this' ->
    ComponentLayoutBuilder.env this' = ComponentLayoutBuilder.env this.
Proof.
  induction calls as [|c r IH]; intros this this'; simpl.
  - intros E. injection E as <-. reflexivity.
  - destruct (ComponentLayoutBuilder.step c this) as [mid|e] eqn:Hs; [|discriminate].
    intros E. rewrite (IH _ _ E). apply (step_keeps_env _ _ Hs).
Qed.

Lemma run_unbound (calls : list ComponentLayoutBuilder.call) (this : ComponentLayoutBuilder.t) :
  ComponentLayoutBuilder.inner this = None ->
  forallb (fun c => negb (ComponentLayoutBuilder.is_bind c)) calls = true ->
  ComponentLayoutBuilder.run calls this = Ok this \/
  ComponentLayoutBuilder.run calls this = Throw TypeError.
Proof.
  intros Hi Hc. destruct calls as [|c r]; simpl.
  - left. reflexivity.
  - right. simpl in Hc. apply andb_true_iff in Hc. destruct Hc as [Hc _].
    destruct c; simpl in *; try discriminate; rewrite Hi; reflexivity.
Qed.

(** C7: [compile] on a builder with no strategy bound throws, and so
    does [compileLayout] for every compilable that never calls
    [wrapLayout] or [fromLayout]; no program comes out.  A bind never
    throws, and after it the bound strategy is the one just constructed,
    whatever was bound before. *)
Theorem compile_needs_a_strategy_and_bind_replaces :
  (forall this,
     ComponentLayoutBuilder.inner this = None ->
     ComponentLayoutBuilder.compile this = Throw TypeError)
  /\
  (forall calls env,
     forallb (fun c => negb (ComponentLayoutBuilder.is_bind c)) calls = true ->
     compileLayout calls env = Throw TypeError)
  /\
  (forall layout this,
     ComponentLayoutBuilder.step (ComponentLayoutBuilder.call_wrapLayout layout) this
     = Ok (ComponentLayoutBuilder.wrapLayout layout this)
     /\
     ComponentLayoutBuilder.inner (ComponentLayoutBuilder.wrapLayout layout this)
     = Some (ComponentLayoutBuilder.Wrapped
               (WrappedBuilder.new (ComponentLayoutBuilder.env this) layout))
     /\
     ComponentLayoutBuilder.step (ComponentLayoutBuilder.call_fromLayout layout) this
     = Ok (ComponentLayoutBuilder.fromLayout layout this)
     /\
     ComponentLayoutBuilder.inner (ComponentLayoutBuilder.fromLayout layout this)
     = Some (ComponentLayoutBuilder.Unwrapped
               (UnwrappedBuilder.new (ComponentLayoutBuilder.env this) layout))).
Proof.
  split; [|split].
  - intros this H. unfold ComponentLayoutBuilder.compile. rewrite H. reflexivity.
  - intros calls env H. unfold compileLayout.
    destruct (run_unbound calls (ComponentLayoutBuilder.new env) eq_refl H) as [E|E];
      rewrite E; reflexivity.
  - intros layout this. repeat split.
Qed.

Lemma compile_needs_a_strategy_and_bind_replaces_witness :
  (ComponentLayoutBuilder.inner (ComponentLayoutBuilder.new (Env 0)) = None
   /\
   forallb (fun c => negb (ComponentLayoutBuilder.is_bind c))
     [ComponentLayoutBuilder.call_attrs (ComponentAttrsBuilder.call_static "class" "a")]
   = true)
  /\
  ComponentLayoutBuilder.compile (ComponentLayoutBuilder.new (Env 0)) = Throw TypeError
  /\
  compileLayout
    [ComponentLayoutBuilder.call_attrs (ComponentAttrsBuilder.call_static "class" "a")]
    (Env 0)
  = Throw TypeError.
Proof.
  split; [split; reflexivity|].
  split.
  - apply (proj1 compile_needs_a_strategy_and_bind_replaces). reflexivity.
  - apply (proj1 (proj2 compile_needs_a_strategy_and_bind_replaces)). reflexivity.
Defined.

(** C10: a bind constructs its strategy from the environment and the
    layout alone, with an empty attribute buffer and, for Wrapped, a tag
    builder with nothing set; so a compilable that configures a builder
    and then binds again ends up exactly where it would have, had it
    started with that bind. *)
Theorem bind_starts_fresh :
  (forall layout this,
     ComponentLayoutBuilder.wrapLayout layout this
     = {| ComponentLayoutBuilder.env := ComponentLayoutBuilder.env this;
          ComponentLayoutBuilder.inner :=
            Some (ComponentLayoutBuilder.Wrapped
                    {| WrappedBuilder.tag :=
                         {| ComponentTagBuilder.isDynamic := None;
                            ComponentTagBuilder.isStatic := None;
                            ComponentTagBuilder.staticTagName := None;
                            ComponentTagBuilder.dynamicTagName := None |};
                       WrappedBuilder.attrs := {| ComponentAttrsBuilder.buffer := [] |};
                       WrappedBuilder.env := ComponentLayoutBuilder.env this;
                       WrappedBuilder.layout := layout |}) |}
     /\
     ComponentLayoutBuilder.fromLayout layout this
     = {| ComponentLayoutBuilder.env := ComponentLayoutBuilder.env this;
          ComponentLayoutBuilder.inner :=
            Some (ComponentLayoutBuilder.Unwrapped
                    {| UnwrappedBuilder.attrs := {| ComponentAttrsBuilder.buffer := [] |};
                       UnwrappedBuilder.env := ComponentLayoutBuilder.env this;
                       UnwrappedBuilder.layout := layout |}) |})
  /\
  (forall before after bind start configured,
     ComponentLayoutBuilder.is_bind bind = true ->
     ComponentLayoutBuilder.run before start = Ok configured ->
     ComponentLayoutBuilder.run (before ++ bind :: after) start
     = ComponentLayoutBuilder.run (bind :: after)
         (ComponentLayoutBuilder.new (ComponentLayoutBuilder.env start))).
Proof.
  split.
  - intros layout this. split; reflexivity.
  - intros before after bind start configured Hb Hr.
    rewrite run_app, Hr.
    pose proof (run_keeps_env _ _ Hr) as He.
    destruct bind; simpl in Hb; try discriminate; simpl;
      unfold ComponentLayoutBuilder.wrapLayout, ComponentLayoutBuilder.fromLayout;
      rewrite He; reflexivity.
Qed.

Lemma bind_starts_fresh_witness :
  (ComponentLayoutBuilder.is_bind (ComponentLayoutBuilder.call_wrapLayout plain_template)
   = true
   /\
   ComponentLayoutBuilder.run
     [ComponentLayoutBuilder.call_fromLayout rooted_template;
      ComponentLayoutBuilder.call_attrs (ComponentAttrsBuilder.call_static "class" "a")]
     (ComponentLayoutBuilder.new (Env 0))
   = Ok {| ComponentLayoutBuilder.env := Env 0;
           ComponentLayoutBuilder.inner :=
             Some (ComponentLayoutBuilder.Unwrapped
                     {| UnwrappedBuilder.attrs :=
                          {| ComponentAttrsBuilder.buffer :=
                               [StaticAttr "class" "a" None] |};
                        UnwrappedBuilder.env := Env 0;
                        UnwrappedBuilder.layout := rooted_template |}) |})
  /\
  ComponentLayoutBuilder.run
    ([ComponentLayoutBuilder.call_fromLayout rooted_template;
      ComponentLayoutBuilder.call_attrs (ComponentAttrsBuilder.call_static "class" "a")]
     ++ ComponentLayoutBuilder.call_wrapLayout plain_template
        :: [ComponentLayoutBuilder.call_tag (ComponentTagBuilder.call_static "div")])
    (ComponentLayoutBuilder.new (Env 0))
  = ComponentLayoutBuilder.run
      (ComponentLayoutBuilder.call_wrapLayout plain_template
       :: [ComponentLayoutBuilder.call_tag (ComponentTagBuilder.call_static "div")])
      (ComponentLayoutBuilder.new
         (ComponentLayoutBuilder.env (ComponentLayoutBuilder.new (Env 0)))).
Proof.
  split; [split; reflexivity|].
  eapply (proj2 bind_starts_fresh); reflexivity.
Defined.

(* ===================================================================== *)
(** ** The dynamic invocation *)

Lemma skipn_length_app {A} (l r : list A) : skipn (List.length l) (l ++ r) = r.
Proof. induction l as [|x l IH]; simpl; [reflexivity | exact IH]. Qed.

(** What [dynamic] returns and what it logs do not depend on what the
    log already holds. *)
Lemma dynamic_on_any_log
    (definitionArgs : option ComponentArgs) (getDefinition : Helper)
    (args : ComponentArgs) (table : SymbolTable) (b : OpcodeBuilderDSL.t) :
  ComponentBuilder.dynamic definitionArgs getDefinition args table b
  = (fst (ComponentBuilder.dynamic definitionArgs getDefinition args table
            (OpcodeBuilderDSL.clear_log b)),
     {| OpcodeBuilderDSL.symbolTable := OpcodeBuilderDSL.symbolTable b;
        OpcodeBuilderDSL.env := OpcodeBuilderDSL.env b;
        OpcodeBuilderDSL.calls :=
          OpcodeBuilderDSL.calls b ++
          OpcodeBuilderDSL.calls
            (snd (ComponentBuilder.dynamic definitionArgs getDefinition args table
                    (OpcodeBuilderDSL.clear_log b)));
        OpcodeBuilderDSL.locals :=
          OpcodeBuilderDSL.locals
            (snd (ComponentBuilder.dynamic definitionArgs getDefinition args table
                    (OpcodeBuilderDSL.clear_log b))) |}).
Proof.
  destruct b as [st env cs n].
  destruct definitionArgs as [[|a rest]|].
  - reflexivity.
  - set (h := js_index args 1). set (bl := js_index args 2). set (iv := js_index args 3).
    set (a0 := js_index (a :: rest) 0). set (a1 := js_index (a :: rest) 1).
    unfold ComponentBuilder.dynamic.
    fold h bl iv a0 a1.
    cbn [List.length Nat.eqb].
    cbv -[app h bl iv a0 a1 hash_names List.length].
    rewrite <- !app_assoc. reflexivity.
  - reflexivity.
Qed.

Lemma dynamic_added
    (definitionArgs : option ComponentArgs) (getDefinition : Helper)
    (args : ComponentArgs) (table : SymbolTable) (b : OpcodeBuilderDSL.t) :
  OpcodeBuilderDSL.added
    (ComponentBuilder.dynamic definitionArgs getDefinition args table) b
  = OpcodeBuilderDSL.calls
      (snd (ComponentBuilder.dynamic definitionArgs getDefinition args table
              (OpcodeBuilderDSL.clear_log b))).
Proof.
  unfold OpcodeBuilderDSL.added. rewrite dynamic_on_any_log.
  cbn [snd OpcodeBuilderDSL.calls]. apply skipn_length_app.
Qed.

(** [dynamic] returns normally exactly when it is given a non-empty
    definition-argument list. *)
Lemma dynamic_returns_iff
    (definitionArgs : option ComponentArgs) (getDefinition : Helper)
    (args : ComponentArgs) (table : SymbolTable) (b : OpcodeBuilderDSL.t) :
  fst (ComponentBuilder.dynamic definitionArgs getDefinition args table b) = Ok tt
  <-> exists a rest, definitionArgs = Some (a :: rest).
Proof.
  rewrite dynamic_on_any_log. cbn [fst].
  destruct b as [st env cs n].
  destruct definitionArgs as [[|a rest]|].
  - split; [discriminate | intros (a & rest & E); discriminate].
  - split; [intros _; exists a, rest; reflexivity | intros _; reflexivity].
  - split; [discriminate | intros (a & rest & E); discriminate].
Qed.

(** C4: in every dynamic invocation that compiles, each of the steps
    below is made once; destructor registration is the step right after
    component creation and transaction begin the step right after that,
    so nothing stands between creation and registration; commit is the
    last step, after the element-created and layout-rendered signals;
    and the scope pop comes before the dynamic-scope pop, both before
    commit. *)
Theorem dynamic_step_order
    (definitionArgs : option ComponentArgs) (getDefinition : Helper)
    (args : ComponentArgs) (table : SymbolTable) (b : OpcodeBuilderDSL.t) :
  fst (ComponentBuilder.dynamic definitionArgs getDefinition args table b) = Ok tt ->
  let s := OpcodeBuilderDSL.steps
             (OpcodeBuilderDSL.added
                (ComponentBuilder.dynamic definitionArgs getDefinition args table) b) in
  exists create register begin didCreate didRender popScope popDynamicScope commit,
    (OpcodeBuilderDSL.position "createComponent" s = Some create /\
     OpcodeBuilderDSL.position "registerComponentDestructor" s = Some register /\
     OpcodeBuilderDSL.position "beginComponentTransaction" s = Some begin /\
     OpcodeBuilderDSL.position "didCreateElement" s = Some didCreate /\
     OpcodeBuilderDSL.position "didRenderLayout" s = Some didRender /\
     OpcodeBuilderDSL.position "popScope" s = Some popScope /\
     OpcodeBuilderDSL.position "popDynamicScope" s = Some popDynamicScope /\
     OpcodeBuilderDSL.position "commitComponentTransaction" s = Some commit)
    /\
    (OpcodeBuilderDSL.times "createComponent" s = 1 /\
     OpcodeBuilderDSL.times "registerComponentDestructor" s = 1 /\
     OpcodeBuilderDSL.times "beginComponentTransaction" s = 1 /\
     OpcodeBuilderDSL.times "didCreateElement" s = 1 /\
     OpcodeBuilderDSL.times "didRenderLayout" s = 1 /\
     OpcodeBuilderDSL.times "popScope" s = 1 /\
     OpcodeBuilderDSL.times "popDynamicScope" s = 1 /\
     OpcodeBuilderDSL.times "commitComponentTransaction" s = 1)
    /\
    register = S create /\
    begin = S register /\
    begin < didCreate /\
    didCreate < didRender /\
    didRender < popScope /\
    popScope < popDynamicScope /\
    popDynamicScope < commit /\
    S commit = List.length s.
Proof.
  intros H s. apply dynamic_returns_iff in H. destruct H as (a & rest & ->).
  subst s. rewrite dynamic_added. destruct b as [st env cs n].
  exists 14, 15, 16, 20, 21, 22, 23, 24.
  cbv. repeat split; lia.
Qed.

Lemma dynamic_step_order_witness :
  fst (ComponentBuilder.dynamic (Some sample_args) (HelperRef 1) sample_args
         sample_table (builder (Env 0) sample_table)) = Ok tt
  /\
  exists create register begin didCreate didRender popScope popDynamicScope commit,
    (OpcodeBuilderDSL.position "createComponent"
       (OpcodeBuilderDSL.steps
          (OpcodeBuilderDSL.added
             (ComponentBuilder.dynamic (Some sample_args) (HelperRef 1) sample_args
                sample_table)
             (builder (Env 0) sample_table))) = Some create /\
     OpcodeBuilderDSL.position "registerComponentDestructor"
       (OpcodeBuilderDSL.steps
          (OpcodeBuilderDSL.added
             (ComponentBuilder.dynamic (Some sample_args) (HelperRef 1) sample_args
                sample_table)
             (builder (Env 0) sample_table))) = Some register /\
     OpcodeBuilderDSL.position "beginComponentTransaction"
       (OpcodeBuilderDSL.steps
          (OpcodeBuilderDSL.added
             (ComponentBuilder.dynamic (Some sample_args) (HelperRef 1) sample_args
                sample_table)
             (builder (Env 0) sample_table))) = Some begin /\
     OpcodeBuilderDSL.position "didCreateElement"
       (OpcodeBuilderDSL.steps
          (OpcodeBuilderDSL.added
             (ComponentBuilder.dynamic (Some sample_args) (HelperRef 1) sample_args
                sample_table)
             (builder (Env 0) sample_table))) = Some didCreate /\
     OpcodeBuilderDSL.position "didRenderLayout"
       (OpcodeBuilderDSL.steps
          (OpcodeBuilderDSL.added
             (ComponentBuilder.dynamic (Some sample_args) (HelperRef 1) sample_args
                sample_table)
             (builder (Env 0) sample_table))) = Some didRender /\
     OpcodeBuilderDSL.position "popScope"
       (OpcodeBuilderDSL.steps
          (OpcodeBuilderDSL.added
             (ComponentBuilder.dynamic (Some sample_args) (HelperRef 1) sample_args
                sample_table)
             (builder (Env 0) sample_table))) = Some popScope /\
     OpcodeBuilderDSL.position "popDynamicScope"
       (OpcodeBuilderDSL.steps
          (OpcodeBuilderDSL.added
             (ComponentBuilder.dynamic (Some sample_args) (HelperRef 1) sample_args
                sample_table)
             (builder (Env 0) sample_table))) = Some popDynamicScope /\
     OpcodeBuilderDSL.position "commitComponentTransaction"
       (OpcodeBuilderDSL.steps
          (OpcodeBuilderDSL.added
             (ComponentBuilder.dynamic (Some sample_args) (HelperRef 1) sample_args
                sample_table)
             (builder (Env 0) sample_table))) = Some commit)
    /\
    register = S create /\
    begin = S register /\
    popScope < popDynamicScope /\
    popDynamicScope < commit /\
    S commit
    = List.length
        (OpcodeBuilderDSL.steps
           (OpcodeBuilderDSL.added
              (ComponentBuilder.dynamic (Some sample_args) (HelperRef 1) sample_args
                 sample_table)
              (builder (Env 0) sample_table))).
Proof.
  split; [reflexivity|].
  destruct (dynamic_step_order (Some sample_args) (HelperRef 1) sample_args
              sample_table (builder (Env 0) sample_table) eq_refl)
    as (c & r & g & dc & dr & ps & pd & k & Hpos & _ & Hr & Hg & _ & _ & _ & Hps & Hpd & Hk).
  exists c, r, g, dc, dr, ps, pd, k.
  split; [exact Hpos|].
  repeat split; assumption.
Defined.

(** C5: with the definition-argument list absent or empty, [dynamic]
    throws its error from inside the [unit] callback before making any
    call on the builder: entering [unit] is all the log gains, and no
    local slot has been handed out. *)
Theorem dynamic_without_argument_throws
    (getDefinition : Helper) (args : ComponentArgs) (table : SymbolTable)
    (b : OpcodeBuilderDSL.t) :
  (ComponentBuilder.dynamic None getDefinition args table b
   = (Throw (Error "Dynamic syntax without an argument"),
      {| OpcodeBuilderDSL.symbolTable := OpcodeBuilderDSL.symbolTable b;
         OpcodeBuilderDSL.env := OpcodeBuilderDSL.env b;
         OpcodeBuilderDSL.calls :=
           OpcodeBuilderDSL.calls b ++ [OpcodeBuilderDSL.Enter_unit];
         OpcodeBuilderDSL.locals := OpcodeBuilderDSL.locals b |})
   /\
   OpcodeBuilderDSL.steps
     (OpcodeBuilderDSL.added
        (ComponentBuilder.dynamic None getDefinition args table) b) = [])
  /\
  (ComponentBuilder.dynamic (Some []) getDefinition args table b
   = (Throw (Error "Dynamic syntax without an argument"),
      {| OpcodeBuilderDSL.symbolTable := OpcodeBuilderDSL.symbolTable b;
         OpcodeBuilderDSL.env := OpcodeBuilderDSL.env b;
         OpcodeBuilderDSL.calls :=
           OpcodeBuilderDSL.calls b ++ [OpcodeBuilderDSL.Enter_unit];
         OpcodeBuilderDSL.locals := OpcodeBuilderDSL.locals b |})
   /\
   OpcodeBuilderDSL.steps
     (OpcodeBuilderDSL.added
        (ComponentBuilder.dynamic (Some []) getDefinition args table) b) = []).
Proof.
  destruct b as [st env cs n].
  split; (split; [reflexivity | rewrite dynamic_added; reflexivity]).
Qed.

(** C8: of a non-empty definition-argument list, [dynamic] reads entries
    0 and 1 and nothing else: two lists that agree on their first two
    entries give the same result and the same log, and the one
    expression evaluated is the resolved-helper expression over those
    two entries. *)
Theorem dynamic_reads_two_definition_args
    (definitionArgs definitionArgs' : ComponentArgs) (getDefinition : Helper)
    (args : ComponentArgs) (table : SymbolTable) (b : OpcodeBuilderDSL.t) :
  definitionArgs <> [] ->
  firstn 2 definitionArgs = firstn 2 definitionArgs' ->
  ComponentBuilder.dynamic (Some definitionArgs) getDefinition args table b
  = ComponentBuilder.dynamic (Some definitionArgs') getDefinition args table b
  /\
  filter (fun c => String.eqb (OpcodeBuilderDSL.method c) "expr")
    (OpcodeBuilderDSL.added
       (ComponentBuilder.dynamic (Some definitionArgs) getDefinition args table) b)
  = [OpcodeBuilderDSL.Call_expr
       (ClientSideExpression_ResolvedHelper getDefinition
          (js_index definitionArgs 0) (js_index definitionArgs 1))].
Proof.
  intros Hne Hfirst. split.
  - unfold ComponentBuilder.dynamic.
    destruct definitionArgs as [|a [|a1 r]], definitionArgs' as [|a' [|a1' r']];
      simpl in Hfirst; try congruence; try discriminate.
    + injection Hfirst as ->. reflexivity.
    + injection Hfirst as -> ->.
      cbn [List.length Nat.eqb js_index nth_error]. reflexivity.
  - rewrite dynamic_added. destruct b as [st env cs n].
    destruct definitionArgs as [|a [|a1 r]]; [congruence | |]; reflexivity.
Qed.

Lemma dynamic_reads_two_definition_args_witness :
  (sample_args <> [] /\
   firstn 2 sample_args
   = firstn 2 [Some (ArgParams [Get ["x"]]);
               Some (ArgHash ["a"; "b"] [Value "1"; Value "2"]);
               Some (ArgParams [Value "ignored"])])
  /\
  ComponentBuilder.dynamic (Some sample_args) (HelperRef 1) sample_args sample_table
    (builder (Env 0) sample_table)
  = ComponentBuilder.dynamic
      (Some [Some (ArgParams [Get ["x"]]);
             Some (ArgHash ["a"; "b"] [Value "1"; Value "2"]);
             Some (ArgParams [Value "ignored"])])
      (HelperRef 1) sample_args sample_table (builder (Env 0) sample_table).
Proof.
  split; [split; [discriminate | reflexivity]|].
  apply (@dynamic_reads_two_definition_args
           sample_args
           [Some (ArgParams [Get ["x"]]);
            Some (ArgHash ["a"; "b"] [Value "1"; Value "2"]);
            Some (ArgParams [Value "ignored"])]
           (HelperRef 1) sample_args sample_table (builder (Env 0) sample_table)).
  - discriminate.
  - reflexivity.
Defined.

(* ===================================================================== *)
(** * Further properties of the code *)

Unset Implicit Arguments.

(** ** Tag builder: the last call of each kind decides *)

Lemma tag_run_app (ops1 ops2 : list ComponentTagBuilder.op) (this : ComponentTagBuilder.t) :
  ComponentTagBuilder.run (ops1 ++ ops2) this
  = ComponentTagBuilder.run ops2 (ComponentTagBuilder.run ops1 this).
Proof. unfold ComponentTagBuilder.run. apply fold_left_app. Qed.

Lemma tag_dynamic_calls_keep_static (ops : list ComponentTagBuilder.op) :
  forallb ComponentTagBuilder.is_dynamic_op ops = true ->
  forall this,
    ComponentTagBuilder.getStatic (ComponentTagBuilder.run ops this)
    = ComponentTagBuilder.getStatic this.
Proof.
  unfold ComponentTagBuilder.run.
  induction ops as [|o ops IH]; intros H this; simpl.
  - reflexivity.
  - simpl in H. apply andb_true_iff in H. destruct H as [Ho H].
    rewrite (IH H). destruct o; [discriminate | reflexivity].
Qed.

Lemma tag_static_calls_keep_dynamic (ops : list ComponentTagBuilder.op) :
  forallb ComponentTagBuilder.is_static_op ops = true ->
  forall this,
    ComponentTagBuilder.getDynamic (ComponentTagBuilder.run ops this)
    = ComponentTagBuilder.getDynamic this.
Proof.
  unfold ComponentTagBuilder.run.
  induction ops as [|o ops IH]; intros H this; simpl.
  - reflexivity.
  - simpl in H. apply andb_true_iff in H. destruct H as [Ho H].
    rewrite (IH H). destruct o; [reflexivity | discriminate].
Qed.

(** X1: after any sequence of calls, [getStatic] returns the name given
    to the last [static] call, whatever [dynamic] calls came before or
    after it and whatever the builder held at the start; likewise
    [getDynamic] returns the expression wrapping the function given to
    the last [dynamic] call. *)
Theorem tag_last_call_of_a_kind_wins
    (before after : list ComponentTagBuilder.op) (this : ComponentTagBuilder.t) :
  (forall name,
     forallb ComponentTagBuilder.is_dynamic_op after = true ->
     ComponentTagBuilder.getStatic
       (ComponentTagBuilder.run
          (before ++ ComponentTagBuilder.call_static name :: after) this)
     = just name)
  /\
  (forall f,
     forallb ComponentTagBuilder.is_static_op after = true ->
     ComponentTagBuilder.getDynamic
       (ComponentTagBuilder.run
          (before ++ ComponentTagBuilder.call_dynamic f :: after) this)
     = just (ClientSideExpression_FunctionExpression f)).
Proof.
  split.
  - intros name H. rewrite tag_run_app.
    change (ComponentTagBuilder.call_static name :: after)
      with ([ComponentTagBuilder.call_static name] ++ after).
    rewrite tag_run_app, (tag_dynamic_calls_keep_static _ H). reflexivity.
  - intros f H. rewrite tag_run_app.
    change (ComponentTagBuilder.call_dynamic f :: after)
      with ([ComponentTagBuilder.call_dynamic f] ++ after).
    rewrite tag_run_app, (tag_static_calls_keep_dynamic _ H). reflexivity.
Qed.

Lemma tag_last_call_of_a_kind_wins_witness :
  forallb ComponentTagBuilder.is_dynamic_op
    [ComponentTagBuilder.call_dynamic (FunctionRef 2)] = true
  /\
  ComponentTagBuilder.getStatic
    (ComponentTagBuilder.run
       ([ComponentTagBuilder.call_static "span";
         ComponentTagBuilder.call_dynamic (FunctionRef 1)]
        ++ ComponentTagBuilder.call_static "div"
           :: [ComponentTagBuilder.call_dynamic (FunctionRef 2)])
       ComponentTagBuilder.new)
  = just "div".
Proof.
  split; [reflexivity|].
  apply (proj1 (tag_last_call_of_a_kind_wins
                  [ComponentTagBuilder.call_static "span";
                   ComponentTagBuilder.call_dynamic (FunctionRef 1)]
                  [ComponentTagBuilder.call_dynamic (FunctionRef 2)]
                  ComponentTagBuilder.new)).
  reflexivity.
Defined.

(** ** Wrapped: which path a configured tag selects *)

Lemma tag_run_dynamic_defined (ops : list ComponentTagBuilder.op) :
  forall this,
    (truthy_flag (ComponentTagBuilder.isDynamic this) = true ->
     ComponentTagBuilder.dynamicTagName this <> None) ->
    truthy_flag (ComponentTagBuilder.isDynamic (ComponentTagBuilder.run ops this)) = true ->
    ComponentTagBuilder.dynamicTagName (ComponentTagBuilder.run ops this) <> None.
Proof.
  unfold ComponentTagBuilder.run.
  induction ops as [|o ops IH]; intros this Hinv; simpl.
  - exact Hinv.
  - apply IH. destruct o; simpl.
    + exact Hinv.
    + intros _. discriminate.
Qed.

(** X2: for a tag configured by calls on a new tag builder, the Wrapped
    strategy compiles through the dynamic-tag path (a statement list
    handed to [scanBlock]) exactly when [dynamic] was called at least
    once, however many [static] calls there were and wherever they
    stand; and a [static] call made on a tag whose dynamic expression is
    set leaves the compiled program unchanged. *)
Theorem wrapped_dynamic_tag_takes_precedence :
  (forall ops attrs env layout,
     scanned_from
       (WrappedBuilder.compile
          {| WrappedBuilder.tag := ComponentTagBuilder.run ops ComponentTagBuilder.new;
             WrappedBuilder.attrs := attrs;
             WrappedBuilder.env := env;
             WrappedBuilder.layout := layout |}) <> None
     <-> existsb ComponentTagBuilder.is_dynamic_op ops = true)
  /\
  (forall w e name,
     ComponentTagBuilder.getDynamic (WrappedBuilder.tag w) = just e ->
     WrappedBuilder.compile
       {| WrappedBuilder.tag := ComponentTagBuilder.static name (WrappedBuilder.tag w);
          WrappedBuilder.attrs := WrappedBuilder.attrs w;
          WrappedBuilder.env := WrappedBuilder.env w;
          WrappedBuilder.layout := WrappedBuilder.layout w |}
     = WrappedBuilder.compile w).
Proof.
  split.
  - intros ops attrs env layout.
    destruct (tag_run_flags ops ComponentTagBuilder.new) as [_ Hd].
    simpl in Hd. rewrite orb_false_r in Hd.
    pose proof (tag_run_dynamic_defined ops ComponentTagBuilder.new) as Hdef.
    unfold WrappedBuilder.compile, ComponentTagBuilder.getDynamic.
    cbn [WrappedBuilder.tag].
    rewrite Hd in *.
    destruct (existsb ComponentTagBuilder.is_dynamic_op ops).
    + destruct (ComponentTagBuilder.dynamicTagName
                  (ComponentTagBuilder.run ops ComponentTagBuilder.new)) as [e|] eqn:He.
      * simpl. split; [reflexivity | discriminate].
      * exfalso. apply Hdef; [discriminate | reflexivity | reflexivity].
    + simpl. split; [intros H; exfalso; apply H; reflexivity | discriminate].
  - intros w e name H. unfold WrappedBuilder.compile.
    cbn [WrappedBuilder.tag WrappedBuilder.attrs WrappedBuilder.env WrappedBuilder.layout].
    change (ComponentTagBuilder.getDynamic
              (ComponentTagBuilder.static name (WrappedBuilder.tag w)))
      with (ComponentTagBuilder.getDynamic (WrappedBuilder.tag w)).
    rewrite H. reflexivity.
Qed.

Lemma wrapped_dynamic_tag_takes_precedence_witness :
  ComponentTagBuilder.getDynamic (WrappedBuilder.tag (wrapped_dynamic rooted_template))
    = just (ClientSideExpression_FunctionExpression (FunctionRef 7))
  /\
  WrappedBuilder.compile
    {| WrappedBuilder.tag :=
         ComponentTagBuilder.static "div"
           (WrappedBuilder.tag (wrapped_dynamic rooted_template));
       WrappedBuilder.attrs := WrappedBuilder.attrs (wrapped_dynamic rooted_template);
       WrappedBuilder.env := WrappedBuilder.env (wrapped_dynamic rooted_template);
       WrappedBuilder.layout := WrappedBuilder.layout (wrapped_dynamic rooted_template) |}
  = WrappedBuilder.compile (wrapped_dynamic rooted_template).
Proof.
  split; [reflexivity|].
  apply (proj2 wrapped_dynamic_tag_takes_precedence
           (wrapped_dynamic rooted_template)
           (ClientSideExpression_FunctionExpression (FunctionRef 7)) "div").
  reflexivity.
Defined.

(** ** Wrapped with no tag configured *)



(** ** Unwrapped hands the template block through *)

(** X4: the block the Unwrapped strategy gives the scanner has the
    template's statements, named and yield names, partials flag and
    prelude unchanged, and a head that is never [null].  With an empty
    attribute buffer a template that has a head is handed over as it is;
    a template without one is handed over with an empty head in place of
    [null]. *)
Theorem unwrapped_hands_block_through (u : UnwrappedBuilder.t) :
  exists b,
    scanner_block (UnwrappedBuilder.compile u) = Some b /\
    block_statements b = block_statements (block (UnwrappedBuilder.layout u)) /\
    named b = named (block (UnwrappedBuilder.layout u)) /\
    yields b = yields (block (UnwrappedBuilder.layout u)) /\
    hasPartials b = hasPartials (block (UnwrappedBuilder.layout u)) /\
    prelude b = prelude (block (UnwrappedBuilder.layout u)) /\
    head b <> None /\
    (ComponentAttrsBuilder.buffer (UnwrappedBuilder.attrs u) = [] ->
     (head (block (UnwrappedBuilder.layout u)) <> None ->
      b = block (UnwrappedBuilder.layout u)) /\
     (head (block (UnwrappedBuilder.layout u)) = None -> head b = Some [])).
Proof.
  eexists. split; [reflexivity|]. cbn.
  repeat (split; [reflexivity|]).
  split; [discriminate|].
  intros Hb. rewrite Hb. split.
  - intros Hh. destruct (block (UnwrappedBuilder.layout u)) as [s n y hp p [h|]]; cbn.
    + reflexivity.
    + exfalso. apply Hh. reflexivity.
  - intros Hh. rewrite Hh. reflexivity.
Qed.

Lemma unwrapped_hands_block_through_witness :
  (ComponentAttrsBuilder.buffer
     (UnwrappedBuilder.attrs (UnwrappedBuilder.new (Env 0) plain_template)) = []
   /\
   head (block (UnwrappedBuilder.layout (UnwrappedBuilder.new (Env 0) plain_template)))
   = None)
  /\
  option_map head
    (scanner_block
       (UnwrappedBuilder.compile (UnwrappedBuilder.new (Env 0) plain_template)))
  = Some (Some []).
Proof.
  split; [split; reflexivity|].
  destruct (unwrapped_hands_block_through (UnwrappedBuilder.new (Env 0) plain_template))
    as (b & Hb & _ & _ & _ & _ & _ & _ & Hempty).
  rewrite Hb. cbn [option_map]. f_equal.
  apply (proj2 (Hempty eq_refl)). reflexivity.
Defined.

(** ** The facade: environment, success, failure *)

Lemma step_keeps_strategy_env (c : ComponentLayoutBuilder.call)
    (this this' : ComponentLayoutBuilder.t) :
  (forall s, ComponentLayoutBuilder.inner this = Some s ->
             strategy_env s = ComponentLayoutBuilder.env this) ->
  ComponentLayoutBuilder.step c this = Ok this' ->
  forall s, ComponentLayoutBuilder.inner this' = Some s ->
            strategy_env s = ComponentLayoutBuilder.env this'.
Proof.
  intros Hinv Hstep s Hs. destruct c; simpl in Hstep.
  - injection Hstep as <-. simpl in Hs. injection Hs as <-. reflexivity.
  - injection Hstep as <-. simpl in Hs. injection Hs as <-. reflexivity.
  - destruct (ComponentLayoutBuilder.inner this) as [[w|u]|] eqn:Hi;
      simpl in Hstep; try discriminate.
    injection Hstep as <-. simpl in Hs. injection Hs as <-.
    apply (Hinv _ eq_refl).
  - destruct (ComponentLayoutBuilder.inner this) as [[w|u]|] eqn:Hi;
      simpl in Hstep; try discriminate;
      injection Hstep as <-; simpl in Hs; injection Hs as <-;
      apply (Hinv _ eq_refl).
Qed.

Lemma run_keeps_strategy_env (calls : list ComponentLayoutBuilder.call) :
  forall this this',
    (forall s, ComponentLayoutBuilder.inner this = Some s ->
               strategy_env s = ComponentLayoutBuilder.env this) ->
    ComponentLayoutBuilder.run calls this = Ok this' ->
    forall s, ComponentLayoutBuilder.inner this' = Some s ->
              strategy_env s = ComponentLayoutBuilder.env this'.
Proof.
  induction calls as [|c r IH]; intros this this' Hinv Hrun; simpl in Hrun.
  - injection Hrun as <-. exact Hinv.
  - destruct (ComponentLayoutBuilder.step c this) as [mid|e] eqn:Hs; [|discriminate].
    apply (IH mid this'); [|exact Hrun].
    apply (step_keeps_strategy_env c this mid Hinv Hs).
Qed.

(** X5: whatever calls a compilable makes, a program that
    [compileLayout] returns was scanned with the environment
    [compileLayout] was given, and is linked with that same
    environment. *)
Theorem compileLayout_uses_one_environment
    (calls : list ComponentLayoutBuilder.call) (env env' : Environment)
    (program : Program) :
  compileLayout calls env = Ok (compileDynamic program env') ->
  env' = env /\ program_env program = env.
Proof.
  unfold compileLayout.
  destruct (ComponentLayoutBuilder.run calls (ComponentLayoutBuilder.new env))
    as [b|e] eqn:Hrun; [|discriminate].
  pose proof (run_keeps_env _ _ Hrun) as He. simpl in He.
  assert (Hinv : forall s, ComponentLayoutBuilder.inner b = Some s ->
                           strategy_env s = ComponentLayoutBuilder.env b).
  { apply (run_keeps_strategy_env calls (ComponentLayoutBuilder.new env) b);
      [|exact Hrun].
    intros s Hs. discriminate. }
  unfold ComponentLayoutBuilder.compile.
  destruct (ComponentLayoutBuilder.inner b) as [[w|u]|] eqn:Hi; [| |discriminate];
    intros H; injection H as <- <-; (split; [reflexivity|]);
    rewrite <- He, <- (Hinv _ eq_refl); simpl.
  - unfold WrappedBuilder.compile.
    destruct (ComponentTagBuilder.getDynamic (WrappedBuilder.tag w)); reflexivity.
  - reflexivity.
Qed.

Lemma compileLayout_uses_one_environment_witness :
  compileLayout
    [ComponentLayoutBuilder.call_fromLayout rooted_template;
     ComponentLayoutBuilder.call_attrs (ComponentAttrsBuilder.call_static "class" "a")]
    (Env 3)
  = Ok (compileDynamic
          (UnwrappedBuilder.compile
             {| UnwrappedBuilder.attrs :=
                  {| ComponentAttrsBuilder.buffer := [StaticAttr "class" "a" None] |};
                UnwrappedBuilder.env := Env 3;
                UnwrappedBuilder.layout := rooted_template |})
          (Env 3))
  /\
  program_env
    (UnwrappedBuilder.compile
       {| UnwrappedBuilder.attrs :=
            {| ComponentAttrsBuilder.buffer := [StaticAttr "class" "a" None] |};
          UnwrappedBuilder.env := Env 3;
          UnwrappedBuilder.layout := rooted_template |})
  = Env 3.
Proof.
  split; [reflexivity|].
  apply (compileLayout_uses_one_environment
           [ComponentLayoutBuilder.call_fromLayout rooted_template;
            ComponentLayoutBuilder.call_attrs
              (ComponentAttrsBuilder.call_static "class" "a")]
           (Env 3) (Env 3) _).
  reflexivity.
Defined.








(** ** The invocation compiler *)




(** X10: of its [args], a dynamic invocation reads the hash and the two
    blocks (entries 1, 2 and 3) and nothing else: the positional
    parameters at entry 0 and anything past entry 3 have no effect on
    the result or on what is logged, and the positional count passed to
    [pushComponentArgs] is always 0. *)
Theorem dynamic_drops_positional_params
    (definitionArgs : option ComponentArgs) (getDefinition : Helper)
    (args args' : ComponentArgs) (table : SymbolTable) (b : OpcodeBuilderDSL.t) :
  (js_index args 1 = js_index args' 1 ->
   js_index args 2 = js_index args' 2 ->
   js_index args 3 = js_index args' 3 ->
   ComponentBuilder.dynamic definitionArgs getDefinition args table b
   = ComponentBuilder.dynamic definitionArgs getDefinition args' table b)
  /\
  (fst (ComponentBuilder.dynamic definitionArgs getDefinition args table b) = Ok tt ->
   exists count slots,
     filter (fun c => String.eqb (OpcodeBuilderDSL.method c) "pushComponentArgs")
       (OpcodeBuilderDSL.added
          (ComponentBuilder.dynamic definitionArgs getDefinition args table) b)
     = [OpcodeBuilderDSL.Call_pushComponentArgs 0 count slots]).
Proof.
  split.
  - intros H1 H2 H3. unfold ComponentBuilder.dynamic. cbv zeta.
    rewrite H1, H2, H3. reflexivity.
  - intros H. apply dynamic_returns_iff in H. destruct H as (a & rest & ->).
    rewrite dynamic_added. destruct b as [st env cs n].
    cbv. eexists. eexists. reflexivity.
Qed.

Lemma dynamic_drops_positional_params_witness :
  (js_index sample_args 1 = js_index other_args 1 /\
   js_index sample_args 2 = js_index other_args 2 /\
   js_index sample_args 3 = js_index other_args 3 /\
   fst (ComponentBuilder.dynamic (Some sample_args) (HelperRef 1) sample_args
          sample_table (builder (Env 0) sample_table)) = Ok tt)
  /\
  ComponentBuilder.dynamic (Some sample_args) (HelperRef 1) sample_args sample_table
    (builder (Env 0) sample_table)
  = ComponentBuilder.dynamic (Some sample_args) (HelperRef 1) other_args sample_table
      (builder (Env 0) sample_table)
  /\
  exists count slots,
    filter (fun c => String.eqb (OpcodeBuilderDSL.method c) "pushComponentArgs")
      (OpcodeBuilderDSL.added
         (ComponentBuilder.dynamic (Some sample_args) (HelperRef 1) sample_args
            sample_table)
         (builder (Env 0) sample_table))
    = [OpcodeBuilderDSL.Call_pushComponentArgs 0 count slots].
Proof.
  split; [repeat split|].
  split.
  - apply (proj1 (dynamic_drops_positional_params (Some sample_args) (HelperRef 1)
                    sample_args other_args sample_table
                    (builder (Env 0) sample_table)));
      reflexivity.
  - apply (proj2 (dynamic_drops_positional_params (Some sample_args) (HelperRef 1)
                    sample_args other_args sample_table
                    (builder (Env 0) sample_table))).
    reflexivity.
Defined.

(** X11: in a dynamic invocation that compiles, the first two steps are
    the two [local()] calls and no local is allocated after them; every
    later step that names the definition ([setLocal], [getLocal],
    [pushDynamicComponentManager]) is given the slot the first call
    returned, and every step that names the component state
    ([setComponentState], [createComponent], [registerComponentDestructor],
    [getComponentSelf], [getComponentLayout], [didCreateElement],
    [didRenderLayout]) is given the slot the second call returned. *)
Theorem dynamic_slots_are_used_consistently
    (definitionArgs : option ComponentArgs) (getDefinition : Helper)
    (args : ComponentArgs) (table : SymbolTable) (b : OpcodeBuilderDSL.t) :
  fst (ComponentBuilder.dynamic definitionArgs getDefinition args table b) = Ok tt ->
  exists definition state rest,
    OpcodeBuilderDSL.steps
      (OpcodeBuilderDSL.added
         (ComponentBuilder.dynamic definitionArgs getDefinition args table) b)
    = OpcodeBuilderDSL.Call_local definition
      :: OpcodeBuilderDSL.Call_local state :: rest
    /\
    Forall (fun c =>
              match c with
              | OpcodeBuilderDSL.Call_local _ => False
              | OpcodeBuilderDSL.Call_setLocal x
              | OpcodeBuilderDSL.Call_getLocal x
              | OpcodeBuilderDSL.Call_pushDynamicComponentManager x => x = definition
              | OpcodeBuilderDSL.Call_setComponentState x
              | OpcodeBuilderDSL.Call_createComponent x _ _
              | OpcodeBuilderDSL.Call_registerComponentDestructor x
              | OpcodeBuilderDSL.Call_getComponentSelf x
              | OpcodeBuilderDSL.Call_getComponentLayout x
              | OpcodeBuilderDSL.Call_didCreateElement x
              | OpcodeBuilderDSL.Call_didRenderLayout x => x = state
              | _ => True
              end) rest.
Proof.
  intros H. apply dynamic_returns_iff in H. destruct H as (a & rest & ->).
  rewrite dynamic_added. destruct b as [st env cs n].
  cbv -[js_index hash_names List.length].
  eexists. eexists. eexists. split.
  - reflexivity.
  - repeat (apply Forall_cons; [exact I || reflexivity|]). apply Forall_nil.
Qed.

Lemma dynamic_slots_are_used_consistently_witness :
  fst (ComponentBuilder.dynamic (Some sample_args) (HelperRef 1) sample_args
         sample_table (builder (Env 0) sample_table)) = Ok tt
  /\
  exists definition state rest,
    OpcodeBuilderDSL.steps
      (OpcodeBuilderDSL.added
         (ComponentBuilder.dynamic (Some sample_args) (HelperRef 1) sample_args
            sample_table)
         (builder (Env 0) sample_table))
    = OpcodeBuilderDSL.Call_local definition
      :: OpcodeBuilderDSL.Call_local state :: rest.
Proof.
  split; [reflexivity|].
  destruct (dynamic_slots_are_used_consistently (Some sample_args) (HelperRef 1)
              sample_args sample_table (builder (Env 0) sample_table) eq_refl)
    as (d & s & rest & Hsteps & _).
  exists d, s, rest. exact Hsteps.
Defined.

(** X12: in a dynamic invocation that compiles, the one [test] and the
    one [jumpUnless] sit at the start of the labelled section: [test
    'simple'] is the last call before [labelled] is entered and
    [jumpUnless 'END'] the first call inside it.  Before them come only
    the slot allocations, the resolution expression and the store and
    re-read of the definition; every other call lies inside the labelled
    section, which closes right before [unit] returns. *)
Theorem dynamic_branch_guards_the_protocol
    (definitionArgs : option ComponentArgs) (getDefinition : Helper)
    (args : ComponentArgs) (table : SymbolTable) (b : OpcodeBuilderDSL.t) :
  fst (ComponentBuilder.dynamic definitionArgs getDefinition args table b) = Ok tt ->
  exists before inside,
    OpcodeBuilderDSL.added
      (ComponentBuilder.dynamic definitionArgs getDefinition args table) b
    = [OpcodeBuilderDSL.Enter_unit]
      ++ before
      ++ [OpcodeBuilderDSL.Call_test "simple";
          OpcodeBuilderDSL.Enter_labelled;
          OpcodeBuilderDSL.Call_jumpUnless "END"]
      ++ inside
      ++ [OpcodeBuilderDSL.Exit_labelled; OpcodeBuilderDSL.Exit_unit]
    /\
    Forall (fun c => In (OpcodeBuilderDSL.method c)
                        ["local"; "expr"; "setLocal"; "getLocal"]) before
    /\
    Forall (fun c => OpcodeBuilderDSL.is_bracket c = false /\
                     OpcodeBuilderDSL.method c <> "test" /\
                     OpcodeBuilderDSL.method c <> "jumpUnless" /\
                     OpcodeBuilderDSL.method c <> "local" /\
                     OpcodeBuilderDSL.method c <> "expr") inside.
Proof.
  intros H. apply dynamic_returns_iff in H. destruct H as (a & rest & ->).
  rewrite dynamic_added. destruct b as [st env cs n].
  exists (firstn 5 (skipn 1
            (OpcodeBuilderDSL.calls
               (snd (ComponentBuilder.dynamic (Some (a :: rest)) getDefinition args table
                       (OpcodeBuilderDSL.clear_log
                          (OpcodeBuilderDSL.mk st env cs n))))))).
  exists (firstn 18 (skipn 9
            (OpcodeBuilderDSL.calls
               (snd (ComponentBuilder.dynamic (Some (a :: rest)) getDefinition args table
                       (OpcodeBuilderDSL.clear_log
                          (OpcodeBuilderDSL.mk st env cs n))))))).
  cbv -[js_index hash_names List.length].
  split; [reflexivity|]. split.
  - repeat (apply Forall_cons; [auto 6|]). apply Forall_nil.
  - repeat (apply Forall_cons;
            [repeat split; discriminate|]).
    apply Forall_nil.
Qed.

Lemma dynamic_branch_guards_the_protocol_witness :
  fst (ComponentBuilder.dynamic (Some sample_args) (HelperRef 1) sample_args
         sample_table (builder (Env 0) sample_table)) = Ok tt
  /\
  exists before inside,
    OpcodeBuilderDSL.added
      (ComponentBuilder.dynamic (Some sample_args) (HelperRef 1) sample_args
         sample_table)
      (builder (Env 0) sample_table)
    = [OpcodeBuilderDSL.Enter_unit]
      ++ before
      ++ [OpcodeBuilderDSL.Call_test "simple";
          OpcodeBuilderDSL.Enter_labelled;
          OpcodeBuilderDSL.Call_jumpUnless "END"]
      ++ inside
      ++ [OpcodeBuilderDSL.Exit_labelled; OpcodeBuilderDSL.Exit_unit].
Proof.
  split; [reflexivity|].
  destruct (dynamic_branch_guards_the_protocol (Some sample_args) (HelperRef 1)
              sample_args sample_table (builder (Env 0) sample_table) eq_refl)
    as (before & inside & Hlog & _).
  exists before, inside. exact Hlog.
Defined.

(** X13: in a dynamic invocation that compiles, exactly two blocks are
    pushed, the default block (entry 2 of [args]) first and the inverse
    block (entry 3) second; the hash compiled is entry 1 of [args]; and
    the blocks are pushed before the hash is compiled, the hash is
    compiled before the dynamic scope is pushed, and the arguments are
    pushed after that and before the component is created. *)
Theorem dynamic_pushes_blocks_then_compiles_hash
    (definitionArgs : option ComponentArgs) (getDefinition : Helper)
    (args : ComponentArgs) (table : SymbolTable) (b : OpcodeBuilderDSL.t) :
  fst (ComponentBuilder.dynamic definitionArgs getDefinition args table b) = Ok tt ->
  let s := OpcodeBuilderDSL.steps
             (OpcodeBuilderDSL.added
                (ComponentBuilder.dynamic definitionArgs getDefinition args table) b) in
  filter (fun c => String.eqb (OpcodeBuilderDSL.method c) "pushBlock") s
  = [OpcodeBuilderDSL.Call_pushBlock (js_index args 2);
     OpcodeBuilderDSL.Call_pushBlock (js_index args 3)]
  /\
  filter (fun c => String.eqb (OpcodeBuilderDSL.method c) "compileComponentArgs") s
  = [OpcodeBuilderDSL.Call_compileComponentArgs (js_index args 1)]
  /\
  exists firstBlock hash scope pushArgs create,
    OpcodeBuilderDSL.position "pushBlock" s = Some firstBlock /\
    OpcodeBuilderDSL.position "compileComponentArgs" s = Some hash /\
    OpcodeBuilderDSL.position "pushDynamicScope" s = Some scope /\
    OpcodeBuilderDSL.position "pushComponentArgs" s = Some pushArgs /\
    OpcodeBuilderDSL.position "createComponent" s = Some create /\
    S (S firstBlock) = hash /\
    hash < scope /\ scope < pushArgs /\ pushArgs < create.
Proof.
  intros H s. apply dynamic_returns_iff in H. destruct H as (a & rest & ->).
  subst s. rewrite dynamic_added. destruct b as [st env cs n].
  cbv -[js_index hash_names List.length Nat.lt].
  split; [reflexivity|]. split; [reflexivity|].
  exists 9, 11, 12, 13, 14. repeat split; lia.
Qed.

Lemma dynamic_pushes_blocks_then_compiles_hash_witness :
  fst (ComponentBuilder.dynamic (Some sample_args) (HelperRef 1) sample_args
         sample_table (builder (Env 0) sample_table)) = Ok tt
  /\
  filter (fun c => String.eqb (OpcodeBuilderDSL.method c) "pushBlock")
    (OpcodeBuilderDSL.steps
       (OpcodeBuilderDSL.added
          (ComponentBuilder.dynamic (Some sample_args) (HelperRef 1) sample_args
             sample_table)
          (builder (Env 0) sample_table)))
  = [OpcodeBuilderDSL.Call_pushBlock (js_index sample_args 2);
     OpcodeBuilderDSL.Call_pushBlock (js_index sample_args 3)].
Proof.
  split; [reflexivity|].
  apply (dynamic_pushes_blocks_then_compiles_hash (Some sample_args) (HelperRef 1)
           sample_args sample_table (builder (Env 0) sample_table)).
  reflexivity.
Defined.

(** ** The reserved yield *)


